(** * AnALiST: the Flask prediction gateway of [app.py]

    A shallow embedding of the five view functions of [app.py] ([home],
    [login], [logout], [predict], [index]) and of the Python built-ins
    they call, followed by the properties of the views.

    Definitions:
    - Python text: [str] as a list of code points, [str.strip],
      [str.upper], [str.isalpha], [len], [int(str)], [str(int)];
    - Python values, exceptions and the view monad (session, log of the
      calls made to the text-generation service, exceptions);
    - the views, transcribed from [app.py];
    - the ticker pattern of the specification, the pure content of
      [predict], the states the application can reach, sample inputs.

    Properties: facts on the built-ins, the equations of [predict], the
    properties of the views, the typing of the session, examples. *)

From Stdlib Require Import ZArith NArith Ascii String DecimalString.
From stdpp Require Import gmap strings list numbers.

Local Open Scope N_scope.

(** ** Python text

    A Python [str] is a sequence of Unicode code points.  String
    literals of [app.py] are ASCII and are written [lit "..."]. *)

Abbreviation pystr := (list N).

Definition lit (s : string) : pystr :=
  N_of_ascii <$> list_ascii_of_string s.

(** *** The C character classes of CPython ([pyctype.h]) *)

Definition Py_ISSPACE (c : N) : bool := ((9 <=? c) && (c <=? 13)) || (c =? 32).
Definition Py_ISUPPER (c : N) : bool := (65 <=? c) && (c <=? 90).
Definition Py_ISLOWER (c : N) : bool := (97 <=? c) && (c <=? 122).
Definition Py_ISALPHA (c : N) : bool := Py_ISUPPER c || Py_ISLOWER c.
Definition Py_ISDIGIT (c : N) : bool := (48 <=? c) && (c <=? 57).
Definition Py_TOUPPER (c : N) : N := if Py_ISLOWER c then c - 32 else c.

(** [_Py_ascii_whitespace]: the ASCII code points that [str.strip] and
    [str.isspace] treat as white space (TAB, LF, VT, FF, CR, FS, GS, RS,
    US and the space). *)
Definition Py_ascii_whitespace (c : N) : bool :=
  Py_ISSPACE c || ((28 <=? c) && (c <=? 31)).

(** *** The interpreter's tables

    The Unicode character database of the interpreter and its limit on
    the number of digits of an integer literal are not part of [app.py]:
    they are taken as parameters.  The only facts used about them are the
    ones CPython guarantees on ASCII code points. *)

Class PyRuntime := {
  (** [_PyUnicode_IsWhitespace], consulted for code points above 127 *)
  PyUnicode_IsWhitespace : N → bool;
  (** [_PyUnicode_IsAlpha] (categories Lm, Lt, Lu, Ll, Lo) *)
  PyUnicode_IsAlpha : N → bool;
  (** [_PyUnicode_ToUpperFull]: the upper-case expansion of a code point *)
  PyUnicode_ToUpperFull : N → list N;
  (** [_PyUnicode_ToDecimalDigit]: [None] stands for -1 *)
  PyUnicode_ToDecimalDigit : N → option N;
  (** [sys.get_int_max_str_digits()]; 0 means no limit *)
  max_str_digits : N;
  PyUnicode_IsAlpha_ascii :
    ∀ c, c < 128 → PyUnicode_IsAlpha c = Py_ISALPHA c;
  PyUnicode_ToDecimalDigit_range :
    ∀ c d, PyUnicode_ToDecimalDigit c = Some d → d < 10;
  max_str_digits_range : max_str_digits = 0 ∨ 640 ≤ max_str_digits;
}.

(** *** Exceptions

    Every constructor is a subclass of Python's [Exception], the class
    the two [except Exception] clauses of [predict] catch.
    [LibraryError] stands for the exception classes of the [openai]
    package and of the HTTP stack below it. *)

Inductive exn : Type :=
| ValueError
| TypeError
| KeyError
| IndexError
| AttributeError
| LibraryError (cls : string).

Inductive outcome (A : Type) : Type :=
| Ok (a : A)
| Raise (e : exn).
Arguments Ok {A} a.
Arguments Raise {A} e.

Section Text.
Context `{PyRuntime}.

(** [Py_UNICODE_ISSPACE] *)
Definition Py_UNICODE_ISSPACE (ch : N) : bool :=
  if ch <? 128 then Py_ascii_whitespace ch else PyUnicode_IsWhitespace ch.

Definition PyUnicode_IS_ASCII (s : pystr) : bool := forallb (λ ch, ch <? 128) s.

Fixpoint skip_while (p : N → bool) (s : pystr) : pystr :=
  match s with
  | ch :: s' => if p ch then skip_while p s' else s
  | [] => []
  end.

(** [str.strip()] without argument: white space is removed at both ends. *)
Definition str_lstrip (s : pystr) : pystr := skip_while Py_UNICODE_ISSPACE s.
Definition str_rstrip (s : pystr) : pystr :=
  reverse (skip_while Py_UNICODE_ISSPACE (reverse s)).
Definition str_strip (s : pystr) : pystr := str_rstrip (str_lstrip s).

(** [str.upper()]: an ASCII string is converted byte by byte, any other
    string through the full case mapping of each code point. *)
Definition str_upper (s : pystr) : pystr :=
  if PyUnicode_IS_ASCII s then Py_TOUPPER <$> s
  else s ≫= PyUnicode_ToUpperFull.

(** [str.isalpha()]: false on the empty string. *)
Definition str_isalpha (s : pystr) : bool :=
  match s with
  | [] => false
  | _ => forallb PyUnicode_IsAlpha s
  end.

(** Truth value of a [str]: non-empty. *)
Definition str_bool (s : pystr) : bool :=
  match s with [] => false | _ => true end.

(** [len(s)] *)
Definition len (s : pystr) : Z := Z.of_nat (List.length s).

(** *** [int(s)]

    [_PyUnicode_TransformDecimalAndSpaceToASCII]: an ASCII string is left
    as it is; otherwise white space becomes a space, a decimal digit of
    any script its ASCII digit, and the first other code point above 126
    becomes ['?'] and ends the buffer. *)
Fixpoint transform_decimal_and_space (s : pystr) : pystr :=
  match s with
  | [] => []
  | ch :: s' =>
      if ch <? 127 then ch :: transform_decimal_and_space s'
      else if Py_UNICODE_ISSPACE ch then 32 :: transform_decimal_and_space s'
      else match PyUnicode_ToDecimalDigit ch with
           | Some d => (48 + d) :: transform_decimal_and_space s'
           | None => [63]
           end
  end.

Definition PyUnicode_TransformDecimalAndSpaceToASCII (s : pystr) : pystr :=
  if PyUnicode_IS_ASCII s then s else transform_decimal_and_space s.

(** The digit loop of [long_from_string_base] in base 10: digits with
    single underscores between them.  [prev_us] tells whether the previous
    character was an underscore; the result is the value read, the number
    of digits and the rest of the buffer, or [None] on a doubled or
    trailing underscore. *)
Fixpoint scan_digits (prev_us : bool) (value : Z) (digits : N) (s : pystr)
  : option (Z * N * pystr) :=
  match s with
  | ch :: s' =>
      if ch =? 95 then
        if prev_us then None else scan_digits true value digits s'
      else if Py_ISDIGIT ch then
        scan_digits false (10 * value + Z.of_N (ch - 48))%Z (digits + 1) s'
      else if prev_us then None else Some (value, digits, s)
  | [] => if prev_us then None else Some (value, digits, [])
  end.

(** [PyLong_FromString(buffer, &end, 10)] followed by the end-of-buffer
    test of [PyLong_FromUnicodeObject]. *)
Definition PyLong_FromString (buffer : pystr) : outcome Z :=
  let s := skip_while Py_ISSPACE buffer in
  let '(sign, s) :=
    match s with
    | 43 :: s' => (1%Z, s')
    | 45 :: s' => ((-1)%Z, s')
    | _ => (1%Z, s)
    end in
  match s with
  | 95 :: _ => Raise ValueError
  | _ =>
      match scan_digits false 0%Z 0 s with
      | None => Raise ValueError
      | Some (value, digits, rest) =>
          if digits =? 0 then Raise ValueError
          else if (640 <? digits) && (0 <? max_str_digits)
                  && (max_str_digits <? digits)
          then Raise ValueError
          else match skip_while Py_ISSPACE rest with
               | [] => Ok (sign * value)%Z
               | _ => Raise ValueError
               end
      end
  end.

(** [int(s)] for a [str] argument. *)
Definition py_int (s : pystr) : outcome Z :=
  PyLong_FromString (PyUnicode_TransformDecimalAndSpaceToASCII s).

End Text.

(** *** [str(n)] for an [int], as the f-string of [predict] formats [days] *)

Fixpoint uint_digits (u : Decimal.uint) : pystr :=
  match u with
  | Decimal.Nil => []
  | Decimal.D0 u => 48 :: uint_digits u
  | Decimal.D1 u => 49 :: uint_digits u
  | Decimal.D2 u => 50 :: uint_digits u
  | Decimal.D3 u => 51 :: uint_digits u
  | Decimal.D4 u => 52 :: uint_digits u
  | Decimal.D5 u => 53 :: uint_digits u
  | Decimal.D6 u => 54 :: uint_digits u
  | Decimal.D7 u => 55 :: uint_digits u
  | Decimal.D8 u => 56 :: uint_digits u
  | Decimal.D9 u => 57 :: uint_digits u
  end.

Definition py_str_int (n : Z) : pystr :=
  match Z.to_int n with
  | Decimal.Pos u => uint_digits u
  | Decimal.Neg u => 45 :: uint_digits u
  end.

(** ** Python values

    The values that the session and the template contexts of [app.py]
    hold. *)

Inductive pyval : Type :=
| VNone
| VBool (b : bool)
| VInt (n : Z)
| VStr (s : pystr).

Global Instance pyval_eq_dec : EqDecision pyval.
Proof. solve_decision. Defined.

(** Truth value, as [if] and [not] take it. *)
Definition py_bool (v : pyval) : bool :=
  match v with
  | VNone => false
  | VBool b => b
  | VInt n => negb (n =? 0)%Z
  | VStr s => match s with [] => false | _ => true end
  end.

(** ** The text-generation service

    The object returned by [openai.ChatCompletion.create] is read only
    through subscripts and [.strip()], so it is modelled as the JSON tree
    it wraps. *)

#[warning="-register-all"]
Inductive json : Type :=
| JNull
| JBool (b : bool)
| JNumber (n : Z)
| JStr (s : pystr)
| JList (items : list json)
| JDict (fields : list (pystr * json)).

Fixpoint assoc (k : pystr) (fields : list (pystr * json)) : option json :=
  match fields with
  | [] => None
  | (k', v) :: fields' => if decide (k = k') then Some v else assoc k fields'
  end.

(** [obj[key]] for a [str] key *)
Definition getitem_key (obj : json) (key : pystr) : outcome json :=
  match obj with
  | JDict fields =>
      match assoc key fields with Some v => Ok v | None => Raise KeyError end
  | _ => Raise TypeError
  end.

(** [obj[0]] *)
Definition getitem_0 (obj : json) : outcome json :=
  match obj with
  | JList items =>
      match items with v :: _ => Ok v | [] => Raise IndexError end
  | JStr s =>
      match s with ch :: _ => Ok (JStr [ch]) | [] => Raise IndexError end
  | JDict _ => Raise KeyError
  | _ => Raise TypeError
  end.

(** The keyword arguments of [openai.ChatCompletion.create] *)
Record chat_request : Type := {
  model : pystr;
  messages : list (pystr * pystr);   (* role, content *)
  max_tokens : Z;
}.

(** The process environment read when [app.py] is loaded *)
Record environment : Type := {
  (** whether [import openai] succeeded; otherwise [openai = None] *)
  openai : bool;
  (** [os.getenv("OPENAI_API_KEY")] *)
  OPENAI_API_KEY : option pystr;
}.

(** ** Requests and responses *)

Record request : Type := {
  method : string;
  form : gmap string pystr;
}.

(** [url_for(endpoint)]: the URL of a view, kept as the endpoint name *)
Inductive url : Type := url_for (endpoint : string).

Inductive response : Type :=
| Redirect (location : url)
| Render (template : string) (context : gmap string pyval).

(** ** The view monad

    A view runs on the session of the client and may call the
    text-generation service; [sent] records the calls made, oldest
    first.  A view ends with a value or with an exception. *)

Record state : Type := {
  session : gmap string pyval;
  sent : list chat_request;
}.

Definition view (A : Type) : Type := state → outcome A * state.

Global Instance view_ret : MRet view := λ A a st, (Ok a, st).
Global Instance view_bind : MBind view := λ A B f m st,
  match m st with
  | (Ok a, st') => f a st'
  | (Raise e, st') => (Raise e, st')
  end.

Definition raise {A} (e : exn) : view A := λ st, (Raise e, st).

Definition lift {A} (o : outcome A) : view A := λ st, (o, st).

(** [try: body / except Exception: handler] *)
Definition try_except {A} (body handler : view A) : view A := λ st,
  match body st with
  | (Ok a, st') => (Ok a, st')
  | (Raise _, st') => handler st'
  end.

(** [session.get(key)] *)
Definition session_get (key : string) : view pyval := λ st,
  (Ok (default VNone (session st !! key)), st).

(** [session[key] = v] *)
Definition session_set (key : string) (v : pyval) : view unit := λ st,
  (Ok (), {| session := <[key := v]> (session st); sent := sent st |}).

(** [session.clear()] *)
Definition session_clear : view unit := λ st,
  (Ok (), {| session := ∅; sent := sent st |}).

(** [request.form.get(key, "")] *)
Definition form_get (req : request) (key : string) : pystr :=
  default [] (form req !! key).

Definition redirect (location : url) : view response := mret (Redirect location).

Definition render_template (template : string) (context : list (string * pyval))
  : view response :=
  mret (Render template (list_to_map context)).

(** ** The application

    The views of [app.py].  [env] is the environment the module was
    loaded in and [create] the behaviour of
    [openai.ChatCompletion.create]: the response it returns, or the
    exception it raises, for each call. *)

Section App.
Context `{PyRuntime}.
Variable env : environment.
Variable create : chat_request → outcome json.

(** The call itself: it is recorded in [sent], then returns or raises. *)
Definition ChatCompletion_create (r : chat_request) : view json := λ st,
  (create r, {| session := session st; sent := sent st ++ [r] |}).

Definition ticker_error : pystr :=
  lit "Please enter a valid U.S. stock ticker symbol (1-5 letters).".

Definition unavailable : pystr :=
  lit "The AI prediction service is currently unavailable. " ++
  lit "Ensure that the OpenAI library is installed and the OPENAI_API_KEY environment " ++
  lit "variable is set.".

Definition system_prompt : pystr :=
  lit "You are an assistant providing hypothetical stock outlooks. " ++
  lit "Your responses should emphasize that predictions are not " ++
  lit "financial advice and should avoid guaranteeing returns.".

(** The f-string of [predict] *)
Definition user_prompt (ticker : pystr) (days : Z) : pystr :=
  lit "You are a helpful financial assistant. Provide a hypothetical price prediction " ++
  lit "for the U.S. stock ticker symbol '" ++ ticker ++ lit "' " ++
  py_str_int days ++ lit " days from today. " ++
  lit "Give the projected closing price down to the cent, followed by a brief commentary " ++
  lit "on why the price might move in that direction. This analysis is for educational " ++
  lit "purposes only and should not be taken as financial advice. Avoid providing any " ++
  lit "guarantees or promises about returns.".

(** [@app.route("/", methods=["GET"])] *)
Definition home (req : request) : view response :=
  logged_in ← session_get "logged_in";
  if py_bool logged_in then redirect (url_for "index")
  else redirect (url_for "login").

(** [@app.route("/login", methods=["GET", "POST"])] *)
Definition login (req : request) : view response :=
  if String.eqb (method req) "POST" then
    session_set "logged_in" (VBool true);;
    redirect (url_for "index")
  else render_template "login.html" [].

(** [@app.route("/logout", methods=["POST"])] *)
Definition logout (req : request) : view response :=
  session_clear;;
  redirect (url_for "login").

(** The test of line 82 of [app.py]: true when the ticker is refused. *)
Definition ticker_refused (ticker : pystr) : bool :=
  negb (str_bool ticker) || negb (str_isalpha ticker) || (5 <? len ticker)%Z.

(** The [try] block of lines 89-94, with its [except] clause *)
Definition days_of (days_str : pystr) : view Z :=
  try_except
    (days ← lift (py_int days_str);
     if (days <? 1)%Z || (60 <? days)%Z then raise ValueError
     else mret days)
    (mret 30%Z).

(** [.strip()] on the content of the reply: only a [str] has it. *)
Definition content_strip (content : json) : outcome pystr :=
  match content with
  | JStr s => Ok (str_strip s)
  | _ => Raise AttributeError
  end.

(** Truth value of [OPENAI_API_KEY]: set and not empty *)
Definition key_bool (key : option pystr) : bool :=
  match key with
  | Some k => str_bool k
  | None => false
  end.

(** [@app.route("/predict", methods=["POST"])] *)
Definition predict (req : request) : view response :=
  logged_in ← session_get "logged_in";
  if negb (py_bool logged_in) then redirect (url_for "login")
  else
    let ticker := str_upper (str_strip (form_get req "ticker")) in
    let days_str := str_strip (form_get req "days") in
    if ticker_refused ticker then
      render_template "index.html"
        [("error", VStr ticker_error); ("ticker", VStr [])]
    else
      days ← days_of days_str;
      let user_prompt := user_prompt ticker days in
      let prediction := unavailable in
      prediction ←
        (if openai env && key_bool (OPENAI_API_KEY env) then
           try_except
             (response ← ChatCompletion_create
                 {| model := lit "gpt-3.5-turbo";
                    messages := [(lit "system", system_prompt);
                                 (lit "user", user_prompt)];
                    max_tokens := 250 |};
              choices ← lift (getitem_key response (lit "choices"));
              choice ← lift (getitem_0 choices);
              message ← lift (getitem_key choice (lit "message"));
              content ← lift (getitem_key message (lit "content"));
              lift (content_strip content))
             (mret prediction)
         else mret prediction);
      render_template "result.html"
        [("ticker", VStr ticker); ("days", VInt days);
         ("prediction", VStr prediction)].

(** [@app.route("/index")] and [@app.route("/main")], [methods=["GET"]] *)
Definition index (req : request) : view response :=
  logged_in ← session_get "logged_in";
  if negb (py_bool logged_in) then redirect (url_for "login")
  else render_template "index.html" [("error", VNone); ("ticker", VStr [])].

End App.

(** ** The ticker pattern of the specification

    [^[A-Za-z]{1,5}$], read as a match of the whole string: between one
    and five characters, each of them an ASCII letter. *)

Definition ticker_pattern (s : pystr) : bool :=
  (1 <=? List.length s)%nat && (List.length s <=? 5)%nat
  && forallb Py_ISALPHA s.

Definition ascii_only (s : pystr) : Prop := Forall (λ ch, ch < 128) s.

(** ** What [predict] computes

    The pure content of [predict], stated apart from the monad: the
    ticker it validates, the day count it uses, the request it sends and
    the text it shows. *)

Global Instance outcome_bind : MBind outcome := λ A B f o,
  match o with
  | Ok a => f a
  | Raise e => Raise e
  end.

Section Pure.
Context `{PyRuntime}.
Variable env : environment.
Variable create : chat_request → outcome json.

(** The value of [ticker] after line 79 *)
Definition normalized_ticker (req : request) : pystr :=
  str_upper (str_strip (form_get req "ticker")).

(** The value of [days] after line 94 *)
Definition effective_days (days_str : pystr) : Z :=
  match py_int days_str with
  | Ok n => if (n <? 1)%Z || (60 <? n)%Z then 30%Z else n
  | Raise _ => 30%Z
  end.

(** The keyword arguments of the call of line 114 *)
Definition request_for (ticker : pystr) (days : Z) : chat_request :=
  {| model := lit "gpt-3.5-turbo";
     messages := [(lit "system", system_prompt);
                  (lit "user", user_prompt ticker days)];
     max_tokens := 250 |}.

(** Line 129: [response["choices"][0]["message"]["content"].strip()] *)
Definition reply_text (response : json) : outcome pystr :=
  choices ← getitem_key response (lit "choices");
  choice ← getitem_0 choices;
  message ← getitem_key choice (lit "message");
  content ← getitem_key message (lit "content");
  content_strip content.

(** The guard of line 112 *)
Definition configured : bool := openai env && key_bool (OPENAI_API_KEY env).

(** The value of [prediction] at line 134 when the call is made *)
Definition prediction_text (r : chat_request) : pystr :=
  match create r ≫= reply_text with
  | Ok text => text
  | Raise _ => unavailable
  end.

Definition result_page (ticker : pystr) (days : Z) (prediction : pystr)
  : response :=
  Render "result.html"
    (list_to_map [("ticker", VStr ticker); ("days", VInt days);
                  ("prediction", VStr prediction)]).

Definition error_page : response :=
  Render "index.html"
    (list_to_map [("error", VStr ticker_error); ("ticker", VStr [])]).

Definition login_redirect : response := Redirect (url_for "login").

(** The session flag as the views test it *)
Definition flag (st : state) : bool :=
  py_bool (default VNone (session st !! "logged_in")).

(** A session is authenticated when its [logged_in] attribute is [True]. *)
Definition authenticated (st : state) : Prop :=
  session st !! "logged_in" = Some (VBool true).

(** The data model of the session: [logged_in], when set, is a [bool]. *)
Definition session_typed (st : state) : Prop :=
  ∀ v, session st !! "logged_in" = Some v → ∃ b, v = VBool b.

End Pure.

(** ** The states of the application

    Every session the application can produce, starting from the empty
    one, is typed: [login] is the only view that writes [logged_in], and
    it writes [True]. *)

(** The state of a client that has sent nothing yet *)
Definition fresh_state : state := {| session := ∅; sent := [] |}.

Inductive route : Type := Home | Login | Logout | Predict | Index.

Section Reachable.
Context `{PyRuntime}.
Variable env : environment.
Variable create : chat_request → outcome json.

Definition serve (r : route) : request → view response :=
  match r with
  | Home => home
  | Login => login
  | Logout => logout
  | Predict => predict env create
  | Index => index
  end.

Inductive reachable : state → Prop :=
| reachable_fresh : reachable fresh_state
| reachable_serve st r req page st' :
    reachable st → serve r req st = (page, st') → reachable st'.

End Reachable.

(** ** A runtime to compute with

    [latin1_runtime] follows CPython's tables on the code points below
    256 and knows no white space, letter or digit above them.  It shows
    that [PyRuntime] is inhabited and is the runtime of the closed
    examples; no general statement below depends on it. *)

Definition latin1_isalpha (c : N) : bool :=
  Py_ISALPHA c || (c =? 170) || (c =? 181) || (c =? 186)
  || ((192 <=? c) && (c <=? 255) && negb (c =? 215) && negb (c =? 247)).

Definition latin1_upper (c : N) : list N :=
  if c =? 181 then [924]              (* micro sign: GREEK CAPITAL MU *)
  else if c =? 223 then [83; 83]      (* sharp s: SS *)
  else if c =? 255 then [376]         (* y with diaeresis *)
  else if (224 <=? c) && (c <=? 254) && negb (c =? 247) then [c - 32]
  else [Py_TOUPPER c].

Definition latin1_runtime : PyRuntime.
Proof.
  refine {|
    PyUnicode_IsWhitespace := λ c, (c =? 133) || (c =? 160);
    PyUnicode_IsAlpha := latin1_isalpha;
    PyUnicode_ToUpperFull := latin1_upper;
    PyUnicode_ToDecimalDigit := λ _, None;
    max_str_digits := 4300 |}.
  - intros c Hc. unfold latin1_isalpha.
    replace (c =? 170) with false by (symmetry; apply N.eqb_neq; lia).
    replace (c =? 181) with false by (symmetry; apply N.eqb_neq; lia).
    replace (c =? 186) with false by (symmetry; apply N.eqb_neq; lia).
    replace (192 <=? c) with false by (symmetry; apply N.leb_gt; lia).
    by rewrite !orb_false_r.
  - intros c d [=].
  - right. lia.
Defined.

(** ** Sample requests, sessions and services, for the closed examples *)

Definition logged_in_state : state :=
  {| session := {["logged_in" := VBool true]}; sent := [] |}.

(** A POST of the prediction form with the two fields as typed *)
Definition submit (ticker days : string) : request :=
  {| method := "POST";
     form := {["ticker" := lit ticker; "days" := lit days]} |}.

Definition no_credential : environment :=
  {| openai := true; OPENAI_API_KEY := None |}.

Definition with_credential : environment :=
  {| openai := true; OPENAI_API_KEY := Some (lit "sk-test") |}.

(** A service whose every call raises *)
Definition failing_service : chat_request → outcome json :=
  λ _, Raise (LibraryError "APIConnectionError").

(** A service that answers every call with [text] *)
Definition answering_service (text : pystr) : chat_request → outcome json :=
  λ _, Ok (JDict [(lit "choices",
             JList [JDict [(lit "message",
                      JDict [(lit "role", JStr (lit "assistant"));
                             (lit "content", JStr text)])]])]).

(** A service whose reply has no choice in it *)
Definition empty_service : chat_request → outcome json :=
  λ _, Ok (JDict [(lit "choices", JList [])]).

(** ** The URL map

    The [@app.route] decorators of [app.py]: rule, methods, endpoint.
    The endpoint of a view is the name of its function. *)

Record rule : Type := {
  rule_path : string;
  rule_methods : list string;
  rule_endpoint : string;
}.

Definition url_map : list rule :=
  [ {| rule_path := "/"; rule_methods := ["GET"]; rule_endpoint := "home" |};
    {| rule_path := "/login"; rule_methods := ["GET"; "POST"];
       rule_endpoint := "login" |};
    {| rule_path := "/logout"; rule_methods := ["POST"];
       rule_endpoint := "logout" |};
    {| rule_path := "/predict"; rule_methods := ["POST"];
       rule_endpoint := "predict" |};
    {| rule_path := "/index"; rule_methods := ["GET"];
       rule_endpoint := "index" |};
    {| rule_path := "/main"; rule_methods := ["GET"];
       rule_endpoint := "index" |} ].

(** An endpoint a browser can follow a redirect to: registered, for GET *)
Definition reachable_by_get (endpoint : string) : Prop :=
  ∃ r, r ∈ url_map ∧ rule_endpoint r = endpoint ∧ "GET" ∈ rule_methods r.

(** ** Vocabulary of the further properties *)

(** The state a view leaves *)
Definition after {A} (v : view A) (st : state) : state := (v st).2.

(** The value of [response["choices"][0]["message"]["content"]], before
    [.strip()] *)
Definition reply_content (response : json) : outcome json :=
  choices ← getitem_key response (lit "choices");
  choice ← getitem_0 choices;
  message ← getitem_key choice (lit "message");
  getitem_key message (lit "content").

(** The number a string of ASCII digits writes in base 10 *)
Definition decimal_value (s : pystr) : Z :=
  fold_left (λ value ch, 10 * value + Z.of_N (ch - 48))%Z s 0%Z.

Section Vocabulary.
Context `{PyRuntime}.

(** A string of white space only, the empty string included *)
Definition blank (s : pystr) : Prop :=
  Forall (λ ch, Py_UNICODE_ISSPACE ch = true) s.

(** A request as [predict] sends them: the fixed model and length bound,
    the system prompt, and the prompt of an accepted ticker and of a day
    count in [1,60]. *)
Definition well_formed_call (r : chat_request) : Prop :=
  model r = lit "gpt-3.5-turbo" ∧ max_tokens r = 250%Z
  ∧ ∃ ticker days,
      messages r = [(lit "system", system_prompt);
                    (lit "user", user_prompt ticker days)]
      ∧ ticker_refused ticker = false ∧ (1 ≤ days ≤ 60)%Z.

End Vocabulary.

(** An environment with a key, in which [import openai] failed *)
Definition no_library : environment :=
  {| openai := false; OPENAI_API_KEY := Some (lit "sk-test") |}.

(** A login form as a browser posts it *)
Definition login_post : request := {| method := "POST"; form := ∅ |}.

(** * Properties *)

(** ** Facts on the built-ins *)

Ltac char_cases :=
  unfold Py_UNICODE_ISSPACE, Py_ascii_whitespace, Py_ISSPACE, Py_ISALPHA,
    Py_TOUPPER, Py_ISUPPER, Py_ISLOWER, Py_ISDIGIT in *;
  repeat match goal with
  | |- context [?a <=? ?b] => destruct (N.leb_spec a b)
  | |- context [?a <? ?b] => destruct (N.ltb_spec a b)
  | |- context [?a =? ?b] => destruct (N.eqb_spec a b)
  | H : context [?a <=? ?b] |- _ => destruct (N.leb_spec a b)
  | H : context [?a <? ?b] |- _ => destruct (N.ltb_spec a b)
  | H : context [?a =? ?b] |- _ => destruct (N.eqb_spec a b)
  end;
  simpl in *; try done; try lia.

Section TextFacts.
Context `{PyRuntime}.

Lemma skip_while_Forall (P : N → Prop) p s :
  Forall P s → Forall P (skip_while p s).
Proof.
  induction 1 as [|ch s Hch Hs IH]; simpl; [constructor|].
  destruct (p ch); auto.
Qed.

Lemma skip_while_head p ch s : p ch = false → skip_while p (ch :: s) = ch :: s.
Proof. intros Hp. simpl. by rewrite Hp. Qed.

Lemma skip_while_none p s :
  Forall (λ ch, p ch = false) s → skip_while p s = s.
Proof. destruct 1; [done|]. by apply skip_while_head. Qed.

Lemma str_strip_Forall (P : N → Prop) s :
  Forall P s → Forall P (str_strip s).
Proof.
  intros Hs. unfold str_strip, str_rstrip, str_lstrip.
  by apply Forall_reverse, skip_while_Forall, Forall_reverse, skip_while_Forall.
Qed.

Lemma str_strip_none s :
  Forall (λ ch, Py_UNICODE_ISSPACE ch = false) s → str_strip s = s.
Proof.
  intros Hs. unfold str_strip, str_rstrip, str_lstrip.
  rewrite (skip_while_none _ s Hs).
  rewrite skip_while_none; [apply reverse_involutive|].
  by apply Forall_reverse.
Qed.

Lemma forallb_Forall (p : N → bool) s :
  forallb p s = true ↔ Forall (λ ch, p ch = true) s.
Proof.
  induction s as [|ch s IH]; simpl.
  - split; [constructor|done].
  - rewrite andb_true_iff, IH, Forall_cons_iff. done.
Qed.

Lemma ascii_only_IS_ASCII s : ascii_only s ↔ PyUnicode_IS_ASCII s = true.
Proof.
  unfold ascii_only, PyUnicode_IS_ASCII. rewrite forallb_Forall.
  apply Forall_iff. intros ch. symmetry. apply N.ltb_lt.
Qed.

Lemma letter_is_ascii ch : Py_ISALPHA ch = true → ch < 128.
Proof. char_cases. Qed.

Lemma letter_not_space ch : Py_ISALPHA ch = true → Py_UNICODE_ISSPACE ch = false.
Proof. char_cases. Qed.

Lemma toupper_letter ch : Py_ISALPHA (Py_TOUPPER ch) = Py_ISALPHA ch.
Proof. char_cases. Qed.

Lemma toupper_ascii ch : ch < 128 → Py_TOUPPER ch < 128.
Proof. char_cases. Qed.

Lemma str_upper_ascii s : ascii_only s → str_upper s = Py_TOUPPER <$> s.
Proof. intros Hs. unfold str_upper. by rewrite (proj1 (ascii_only_IS_ASCII s) Hs). Qed.

Lemma isalpha_toupper s :
  ascii_only s →
  forallb PyUnicode_IsAlpha (Py_TOUPPER <$> s) = forallb Py_ISALPHA s.
Proof.
  induction 1 as [|ch s Hch Hs IH]; [done|].
  rewrite fmap_cons. cbn [forallb].
  rewrite IH, PyUnicode_IsAlpha_ascii by (by apply toupper_ascii).
  by rewrite toupper_letter.
Qed.

Lemma ticker_pattern_letters s :
  ticker_pattern s = true → Forall (λ ch, Py_ISALPHA ch = true) s.
Proof.
  unfold ticker_pattern. rewrite !andb_true_iff, forallb_Forall. tauto.
Qed.

End TextFacts.

(** ** Facts on [predict] *)

Section PredictFacts.
Context `{PyRuntime}.
Variable env : environment.
Variable create : chat_request → outcome json.

Lemma authenticated_flag st : authenticated st → flag st = true.
Proof. unfold authenticated, flag. by intros ->. Qed.

Lemma not_authenticated_flag st :
  session_typed st → ¬ authenticated st → flag st = false.
Proof.
  unfold session_typed, authenticated, flag. intros Hty Hna.
  destruct (session st !! "logged_in") as [v|] eqn:Hv; [|done].
  destruct (Hty v eq_refl) as [[] ->]; [done|done].
Qed.

Lemma days_of_eq days_str st :
  days_of days_str st = (Ok (effective_days days_str), st).
Proof.
  unfold days_of, effective_days, try_except, mbind, view_bind, lift.
  destruct (py_int days_str) as [n|e]; [|done].
  by destruct ((n <? 1)%Z || (60 <? n)%Z).
Qed.

(** The day count is in [1,60] whatever the field. *)
Lemma effective_days_range days_str :
  (1 ≤ effective_days days_str ≤ 60)%Z.
Proof.
  unfold effective_days. destruct (py_int days_str) as [n|e]; [|lia].
  destruct (Z.ltb_spec n 1); [simpl; lia|].
  destruct (Z.ltb_spec 60 n); simpl; lia.
Qed.

Lemma predict_anonymous req st :
  flag st = false → predict env create req st = (Ok login_redirect, st).
Proof.
  unfold flag. intros Hf.
  unfold predict, mbind, view_bind, session_get. by rewrite Hf.
Qed.

Lemma predict_refused req st :
  flag st = true → ticker_refused (normalized_ticker req) = true →
  predict env create req st = (Ok error_page, st).
Proof.
  unfold flag, normalized_ticker. intros Hf Ht.
  unfold predict, mbind, view_bind, session_get. by rewrite Hf, Ht.
Qed.

Lemma predict_accepted req st :
  flag st = true → ticker_refused (normalized_ticker req) = false →
  let ticker := normalized_ticker req in
  let days := effective_days (str_strip (form_get req "days")) in
  predict env create req st =
    if configured env then
      (Ok (result_page ticker days
             (prediction_text create (request_for ticker days))),
       {| session := session st;
          sent := sent st ++ [request_for ticker days] |})
    else (Ok (result_page ticker days unavailable), st).
Proof.
  unfold flag, normalized_ticker. intros Hf Ht.
  unfold predict, mbind at 1, view_bind at 1, session_get.
  rewrite Hf, Ht. cbn [negb].
  unfold mbind at 1, view_bind at 1. rewrite days_of_eq.
  fold (configured env). destruct (configured env); [|done].
  unfold prediction_text, reply_text, request_for.
  unfold mbind, view_bind, outcome_bind, try_except, ChatCompletion_create, lift.
  destruct (create _) as [response|e]; [|done].
  destruct (getitem_key response _) as [choices|e]; [|done].
  destruct (getitem_0 choices) as [choice|e]; [|done].
  destruct (getitem_key choice _) as [message|e]; [|done].
  destruct (getitem_key message _) as [content|e]; [|done].
  by destruct (content_strip content).
Qed.

End PredictFacts.

(** ** Validation of the ticker *)

Section Ticker.
Context `{PyRuntime}.

(** On an ASCII string the test of line 82, applied after [upper()], is
    the negation of the pattern. *)
Lemma ticker_refused_ascii t :
  ascii_only t → ticker_refused (str_upper t) = negb (ticker_pattern t).
Proof.
  intros Ht. rewrite str_upper_ascii by done.
  unfold ticker_refused, ticker_pattern, str_isalpha, str_bool, len.
  destruct t as [|ch t]; [done|].
  rewrite <- (isalpha_toupper (ch :: t)) by done.
  rewrite length_fmap, fmap_cons. cbn [negb orb length].
  destruct (forallb _ _); cbn [negb orb andb].
  - destruct (Z.ltb_spec 5 (Z.of_nat (S (length t))));
      destruct (Nat.leb_spec (S (length t)) 5); simpl; try done; lia.
  - by rewrite andb_false_r.
Qed.

(** A string that matches the pattern has nothing to strip. *)
Lemma ticker_pattern_strip s : ticker_pattern s = true → str_strip s = s.
Proof.
  intros Hs. apply str_strip_none.
  eapply Forall_impl; [|by apply ticker_pattern_letters].
  intros ch. apply letter_not_space.
Qed.

Lemma ticker_pattern_ascii s : ticker_pattern s = true → ascii_only s.
Proof.
  intros Hs. eapply Forall_impl; [|by apply ticker_pattern_letters].
  intros ch. apply letter_is_ascii.
Qed.

Lemma ticker_pattern_accepted s :
  ticker_pattern s = true → ticker_refused (str_upper (str_strip s)) = false.
Proof.
  intros Hs. rewrite ticker_pattern_strip by done.
  rewrite ticker_refused_ascii by (by apply ticker_pattern_ascii).
  by rewrite Hs.
Qed.

Lemma stripped_ticker_refused s :
  ascii_only s →
  ticker_refused (str_upper (str_strip s)) = negb (ticker_pattern (str_strip s)).
Proof. intros Hs. by apply ticker_refused_ascii, str_strip_Forall. Qed.

End Ticker.

(** ** Properties of the views *)

Section Views.
Context `{PyRuntime}.
Variable env : environment.
Variable create : chat_request → outcome json.

(** The outcome of [predict] on an accepted ticker, in one statement:
    the result page with the normalized ticker and the effective day
    count, at most one call, the session untouched. *)
Lemma predict_result req st :
  flag st = true → ticker_refused (normalized_ticker req) = false →
  let ticker := normalized_ticker req in
  let days := effective_days (str_strip (form_get req "days")) in
  ∃ prediction st',
    predict env create req st = (Ok (result_page ticker days prediction), st')
    ∧ session st' = session st
    ∧ sent st' =
        sent st ++ (if configured env then [request_for ticker days] else [])
    ∧ prediction =
        (if configured env
         then prediction_text create (request_for ticker days)
         else unavailable).
Proof.
  intros Hf Ht ticker days.
  pose proof (predict_accepted env create req st Hf Ht) as Hp.
  cbv zeta in Hp. fold ticker days in Hp. rewrite Hp.
  destruct (configured env).
  - eexists _, _. split; [done|]. by simpl.
  - eexists _, _. split; [done|]. simpl. by rewrite app_nil_r.
Qed.

(** [predict] never ends with an exception. *)
Lemma predict_never_raises req st :
  ∃ page st', predict env create req st = (Ok page, st').
Proof.
  destruct (flag st) eqn:Hf.
  - destruct (ticker_refused (normalized_ticker req)) eqn:Ht.
    + eexists _, _. by apply predict_refused.
    + destruct (predict_result req st Hf Ht) as (p & st' & Hp & _). eauto.
  - eexists _, _. by apply predict_anonymous.
Qed.

(** C1, as amended: for an authenticated session, a ticker field that
    matches [^[A-Za-z]{1,5}$] proceeds to the result page; and an ASCII
    ticker field proceeds to the result page exactly when it matches the
    pattern once the white space around it is stripped, and is otherwise
    answered with the form and its error message. *)
Theorem ticker_validation_stripped req st :
  authenticated st →
  let raw := form_get req "ticker" in
  let proceeds := ∃ days prediction st',
    predict env create req st =
      (Ok (result_page (normalized_ticker req) days prediction), st') in
  (ticker_pattern raw = true → proceeds)
  ∧ (ascii_only raw → ticker_pattern (str_strip raw) = true → proceeds)
  ∧ (ascii_only raw → ticker_pattern (str_strip raw) = false →
     predict env create req st = (Ok error_page, st)).
Proof.
  intros Ha raw proceeds. apply authenticated_flag in Ha.
  assert (ticker_refused (normalized_ticker req) = false → proceeds) as Hgo.
  { intros Ht. destruct (predict_result req st Ha Ht) as (p & st' & Hp & _).
    by eexists _, _, _. }
  split; [|split].
  - intros Hm. by apply Hgo, ticker_pattern_accepted.
  - intros Hascii Hm. apply Hgo. unfold normalized_ticker. fold raw.
    by rewrite stripped_ticker_refused, Hm.
  - intros Hascii Hm. apply predict_refused; [done|].
    unfold normalized_ticker. fold raw.
    by rewrite stripped_ticker_refused, Hm.
Qed.

(** C2: for an authenticated session and an accepted ticker, the day
    count shown on the result page and written in the prompt is the
    integer the [days] field parses to when that integer lies in
    [1,60], and 30 for every other field. *)
Theorem days_effective req st :
  authenticated st →
  ticker_refused (normalized_ticker req) = false →
  let parsed := py_int (str_strip (form_get req "days")) in
  ∃ days prediction st',
    predict env create req st =
      (Ok (result_page (normalized_ticker req) days prediction), st')
    ∧ sent st' =
        sent st ++ (if configured env
                    then [request_for (normalized_ticker req) days] else [])
    ∧ (∀ n, parsed = Ok n → (1 ≤ n ≤ 60)%Z → days = n)
    ∧ ((∀ n, parsed = Ok n → ¬ (1 ≤ n ≤ 60)%Z) → days = 30%Z).
Proof.
  intros Ha Ht parsed. apply authenticated_flag in Ha.
  destruct (predict_result req st Ha Ht) as (p & st' & Hp & _ & Hsent & _).
  eexists _, p, st'. split; [exact Hp|]. split; [exact Hsent|].
  unfold effective_days. fold parsed. split.
  - intros n -> Hn.
    destruct (Z.ltb_spec n 1); [lia|]. destruct (Z.ltb_spec 60 n); [lia|done].
  - intros Hout. destruct parsed as [n|e]; [|done].
    destruct (Z.ltb_spec n 1); [done|]. destruct (Z.ltb_spec 60 n); [done|].
    destruct (Hout n eq_refl). lia.
Qed.

(** C3: a session whose [logged_in] attribute, a [bool] when it is set,
    is not [True] gets, from the main form and from [predict] alike and
    whatever the request, a redirect to the login view; the session is
    left as it was and the service is not called. *)
Theorem anonymous_redirected req st :
  session_typed st → ¬ authenticated st →
  index req st = (Ok login_redirect, st)
  ∧ predict env create req st = (Ok login_redirect, st).
Proof.
  intros Hty Hna. pose proof (not_authenticated_flag st Hty Hna) as Hf.
  split; [|by apply predict_anonymous].
  unfold flag in Hf. unfold index, mbind, view_bind, session_get.
  by rewrite Hf.
Qed.

(** C4: for an authenticated session, a ticker that fails validation is
    answered with the main form itself, not a redirect, carrying the
    validation message and an empty ticker field; nothing else
    changes. *)
Theorem refused_ticker_rerenders_form req st :
  authenticated st →
  ticker_refused (normalized_ticker req) = true →
  ∃ context,
    predict env create req st = (Ok (Render "index.html" context), st)
    ∧ context !! "error" = Some (VStr ticker_error)
    ∧ context !! "ticker" = Some (VStr []).
Proof.
  intros Ha Ht. apply authenticated_flag in Ha.
  eexists. split; [by apply predict_refused|]. by split.
Qed.

(** C5: a POST to [login], whatever its payload and whatever the session
    held, sets [logged_in] to [True], leaves the other attributes of the
    session as they were, and redirects to the main form. *)
Theorem login_post_authenticates payload st :
  ∃ st',
    login {| method := "POST"; form := payload |} st =
      (Ok (Redirect (url_for "index")), st')
    ∧ authenticated st'
    ∧ session st' = <["logged_in" := VBool true]> (session st)
    ∧ sent st' = sent st.
Proof.
  eexists. split; [reflexivity|]. split; [|done].
  unfold authenticated. simpl. apply lookup_insert_eq.
Qed.

(** C6: [logout] empties the session, every attribute of it, and
    redirects to the login view; the main form, asked for on the session
    that results, redirects to the login view. *)
Theorem logout_clears_session req st :
  ∃ st',
    logout req st = (Ok login_redirect, st')
    ∧ session st' = ∅
    ∧ sent st' = sent st
    ∧ ∀ req', index req' st' = (Ok login_redirect, st').
Proof.
  eexists. split; [reflexivity|]. by repeat split.
Qed.

(** C7: when [OPENAI_API_KEY] is not in the environment, an accepted
    submission of an authenticated session is answered with the result
    page carrying the unavailability message, the normalized ticker and
    the effective day count; the state is unchanged, so no call was
    made, and no exception ends the view. *)
Theorem no_credential_fallback req st :
  OPENAI_API_KEY env = None →
  authenticated st →
  ticker_refused (normalized_ticker req) = false →
  predict env create req st =
    (Ok (result_page (normalized_ticker req)
           (effective_days (str_strip (form_get req "days"))) unavailable),
     st).
Proof.
  intros Hkey Ha Ht. apply authenticated_flag in Ha.
  rewrite (predict_accepted env create req st Ha Ht).
  unfold configured. rewrite Hkey. by rewrite andb_false_r.
Qed.

(** C8: for an accepted submission of an authenticated session, when the
    call to the service raises, or returns a reply from which the text
    cannot be read, [predict] still ends normally with the result page,
    and the text on it is the unavailability message. *)
Theorem service_failure_fallback req st e :
  authenticated st →
  ticker_refused (normalized_ticker req) = false →
  let ticker := normalized_ticker req in
  let days := effective_days (str_strip (form_get req "days")) in
  let call := request_for ticker days in
  (create call = Raise e
   ∨ ∃ reply, create call = Ok reply ∧ reply_text reply = Raise e) →
  ∃ st',
    predict env create req st = (Ok (result_page ticker days unavailable), st')
    ∧ session st' = session st.
Proof.
  intros Ha Ht ticker days call Hfail. apply authenticated_flag in Ha.
  destruct (predict_result req st Ha Ht) as (p & st' & Hp & Hs & _ & Htext).
  exists st'. split; [|done]. rewrite Hp. do 3 f_equal.
  rewrite Htext. destruct (configured env); [|done].
  fold ticker days call. unfold prediction_text.
  destruct Hfail as [->|(reply & -> & Hr)]; [done|].
  simpl. by rewrite Hr.
Qed.

(** C9: on every session, [logged_in] being a [bool] when it is set,
    [home] leaves the state as it found it and redirects: to the main
    form when [logged_in] is [True], to the login view otherwise. *)
Theorem home_redirects req st :
  session_typed st →
  (authenticated st → home req st = (Ok (Redirect (url_for "index")), st))
  ∧ (¬ authenticated st → home req st = (Ok login_redirect, st)).
Proof.
  intros Hty. split.
  - intros Ha. apply authenticated_flag in Ha. unfold flag in Ha.
    unfold home, mbind, view_bind, session_get. by rewrite Ha.
  - intros Hna. pose proof (not_authenticated_flag st Hty Hna) as Hf.
    unfold flag in Hf. unfold home, mbind, view_bind, session_get.
    by rewrite Hf.
Qed.

(** C10: the ticker that [predict] validates, shows on the result page
    and writes in the prompt is the field stripped of the white space
    around it and then upper-cased, not the field as typed. *)
Theorem ticker_normalized req st :
  authenticated st →
  let ticker := str_upper (str_strip (form_get req "ticker")) in
  (ticker_refused ticker = true →
   predict env create req st = (Ok error_page, st))
  ∧ (ticker_refused ticker = false →
     ∃ days prediction st',
       predict env create req st =
         (Ok (result_page ticker days prediction), st')
       ∧ sent st' =
           sent st ++ (if configured env then [request_for ticker days] else [])
       ∧ (∃ before after,
            messages (request_for ticker days) =
              [(lit "system", system_prompt);
               (lit "user", before ++ ticker ++ after)])).
Proof.
  intros Ha ticker. apply authenticated_flag in Ha. split.
  - intros Ht. by apply predict_refused.
  - intros Ht.
    destruct (predict_result req st Ha Ht) as (p & st' & Hp & _ & Hsent & _).
    eexists _, p, st'. split; [exact Hp|]. split; [exact Hsent|].
    eexists _, _. unfold request_for, user_prompt. cbn [messages].
    by rewrite (assoc_L (++) (lit _) (lit _)).
Qed.

End Views.

(** ** The session stays typed *)

Section ReachableFacts.
Context `{PyRuntime}.
Variable env : environment.
Variable create : chat_request → outcome json.

Lemma predict_session req st page st' :
  predict env create req st = (page, st') → session st' = session st.
Proof.
  intros Hp. destruct (flag st) eqn:Hf.
  - destruct (ticker_refused (normalized_ticker req)) eqn:Ht.
    + rewrite predict_refused in Hp by done. by inversion Hp.
    + destruct (predict_result env create req st Hf Ht)
        as (p & st'' & Hp' & Hs & _).
      rewrite Hp' in Hp. by inversion Hp; subst.
  - rewrite predict_anonymous in Hp by done. by inversion Hp.
Qed.

Lemma serve_typed r req st page st' :
  session_typed st → serve env create r req st = (page, st') → session_typed st'.
Proof.
  intros Hty Hserve. destruct r; simpl in Hserve.
  - unfold home, mbind, view_bind, session_get in Hserve.
    destruct (py_bool _); by inversion Hserve; subst.
  - unfold login in Hserve. destruct (String.eqb _ _).
    + inversion Hserve; subst. intros v. unfold session_typed. simpl.
      rewrite lookup_insert_eq. intros [= <-]. by exists true.
    + by inversion Hserve; subst.
  - inversion Hserve; subst. intros v. unfold session_typed. simpl.
    by rewrite lookup_empty.
  - apply predict_session in Hserve. unfold session_typed in *.
    by rewrite Hserve.
  - unfold index, mbind, view_bind, session_get in Hserve.
    destruct (negb _); by inversion Hserve; subst.
Qed.

Lemma reachable_typed st : reachable env create st → session_typed st.
Proof.
  induction 1 as [|st r req page st' _ IH Hserve].
  - intros v. unfold session_typed. simpl. by rewrite lookup_empty.
  - by eapply serve_typed.
Qed.

End ReachableFacts.

(** ** Examples

    The built-ins and the views on concrete inputs.  The inputs are
    ASCII, so the results hold whatever the runtime. *)

Ltac ascii_string := apply ascii_only_IS_ASCII; vm_compute; reflexivity.

Section Examples.
Context `{PyRuntime}.

Example strip_upper_aapl : str_upper (str_strip (lit " aapl ")) = lit "AAPL".
Proof. vm_compute. reflexivity. Qed.

Example strip_control_characters :
  str_strip [9; 28; 97; 32; 98; 31; 10] = [97; 32; 98].
Proof. vm_compute. reflexivity. Qed.

Example int_examples :
  py_int (lit "10") = Ok 10%Z ∧ py_int (lit "+7") = Ok 7%Z
  ∧ py_int (lit "007") = Ok 7%Z ∧ py_int (lit "1_0") = Ok 10%Z
  ∧ py_int (lit "-5") = Ok (-5)%Z ∧ py_int (lit " 12 ") = Ok 12%Z
  ∧ py_int (lit "") = Raise ValueError ∧ py_int (lit "abc") = Raise ValueError
  ∧ py_int (lit "10.0") = Raise ValueError ∧ py_int (lit "1e1") = Raise ValueError
  ∧ py_int (lit "1__0") = Raise ValueError ∧ py_int (lit "_1") = Raise ValueError
  ∧ py_int (lit "1_") = Raise ValueError ∧ py_int (lit "+ 5") = Raise ValueError
  ∧ py_int (lit "0x10") = Raise ValueError ∧ py_int (lit "1 2") = Raise ValueError.
Proof. vm_compute. by repeat split. Qed.

Example days_examples :
  effective_days (str_strip (lit "10")) = 10%Z
  ∧ effective_days (str_strip (lit " 7 ")) = 7%Z
  ∧ effective_days (str_strip (lit "1")) = 1%Z
  ∧ effective_days (str_strip (lit "60")) = 60%Z
  ∧ effective_days (str_strip (lit "0")) = 30%Z
  ∧ effective_days (str_strip (lit "61")) = 30%Z
  ∧ effective_days (str_strip (lit "-5")) = 30%Z
  ∧ effective_days (str_strip (lit "")) = 30%Z
  ∧ effective_days (str_strip (lit "ten")) = 30%Z
  ∧ effective_days (str_strip (lit "10.5")) = 30%Z.
Proof. vm_compute. by repeat split. Qed.

(** The decimal writing of a day count in range is read back as it is. *)
Lemma days_roundtrip n :
  (1 ≤ n ≤ 60)%Z → effective_days (str_strip (py_str_int n)) = n.
Proof.
  intros Hn.
  assert (forallb (λ k, effective_days (str_strip (py_str_int k)) =? k)%Z
            (seqZ 1 60) = true) as Hall by (vm_compute; reflexivity).
  rewrite forallb_forall in Hall. apply Z.eqb_eq, Hall.
  apply list_elem_of_In, elem_of_seqZ. lia.
Qed.

(** The ticker of the examples *)
Lemma aapl_accepted days :
  ticker_refused (normalized_ticker (submit "AAPL" days)) = false.
Proof.
  unfold normalized_ticker.
  replace (form_get (submit "AAPL" days) "ticker") with (lit "AAPL")
    by (vm_compute; reflexivity).
  rewrite stripped_ticker_refused by ascii_string.
  vm_compute. reflexivity.
Qed.

Lemma aapl_normalized days :
  normalized_ticker (submit "AAPL" days) = lit "AAPL".
Proof.
  unfold normalized_ticker.
  replace (form_get (submit "AAPL" days) "ticker") with (lit "AAPL")
    by (vm_compute; reflexivity).
  vm_compute. reflexivity.
Qed.

(** The submission of the specification, ticker [AAPL] and 10 days,
    without a credential: the result page echoes both. *)
Example aapl_10_without_credential create :
  predict no_credential create (submit "AAPL" "10") logged_in_state =
    (Ok (result_page (lit "AAPL") 10 unavailable), logged_in_state).
Proof.
  rewrite predict_accepted by (done || apply aapl_accepted).
  cbv zeta. rewrite aapl_normalized.
  replace (effective_days _) with 10%Z by (vm_compute; reflexivity).
  done.
Qed.

(** The reply of the service is shown stripped, and the call is logged. *)
Example answered_prediction :
  predict with_credential (answering_service (lit " Up two percent. "))
    (submit "AAPL" "10") logged_in_state =
    (Ok (result_page (lit "AAPL") 10 (lit "Up two percent.")),
     {| session := session logged_in_state;
        sent := [request_for (lit "AAPL") 10] |}).
Proof.
  rewrite predict_accepted by (done || apply aapl_accepted).
  cbv zeta. rewrite aapl_normalized.
  replace (effective_days _) with 10%Z by (vm_compute; reflexivity).
  replace (configured with_credential) with true by (vm_compute; reflexivity).
  vm_compute. reflexivity.
Qed.

(** A reply without any choice in it: [IndexError], caught. *)
Example malformed_reply_fallback :
  reply_text (JDict [(lit "choices", JList [])]) = Raise IndexError
  ∧ predict with_credential empty_service (submit "AAPL" "10") logged_in_state =
      (Ok (result_page (lit "AAPL") 10 unavailable),
       {| session := session logged_in_state;
          sent := [request_for (lit "AAPL") 10] |}).
Proof.
  split; [vm_compute; reflexivity|].
  rewrite predict_accepted by (done || apply aapl_accepted).
  cbv zeta. rewrite aapl_normalized.
  replace (effective_days _) with 10%Z by (vm_compute; reflexivity).
  replace (configured with_credential) with true by (vm_compute; reflexivity).
  vm_compute. reflexivity.
Qed.

End Examples.

(** Beyond ASCII the pattern no longer decides: with CPython's tables on
    Latin-1, the one-letter ticker e-acute is accepted as E-acute, and
    three sharp s, upper-cased to six letters, are refused. *)
Example latin1_tickers :
  ticker_refused (H:=latin1_runtime)
    (str_upper (H:=latin1_runtime) (str_strip (H:=latin1_runtime) [233])) = false
  ∧ str_upper (H:=latin1_runtime) [233] = [201]
  ∧ ticker_refused (H:=latin1_runtime)
      (str_upper (H:=latin1_runtime) [223; 223; 223]) = true.
Proof. vm_compute. by repeat split. Qed.

(** A client logs in, asks for a prediction, logs out and comes back. *)
Example session_walk :
  ∃ st1 st2 st3,
    index (submit "" "") fresh_state = (Ok login_redirect, fresh_state)
    ∧ login {| method := "POST"; form := ∅ |} fresh_state =
        (Ok (Redirect (url_for "index")), st1)
    ∧ predict (H:=latin1_runtime) with_credential
        (answering_service (lit "Flat.")) (submit " msft" "15") st1 =
        (Ok (result_page (lit "MSFT") 15 (lit "Flat.")), st2)
    ∧ sent st2 = [request_for (lit "MSFT") 15]
    ∧ logout (submit "" "") st2 = (Ok login_redirect, st3)
    ∧ session st3 = ∅
    ∧ index (submit "" "") st3 = (Ok login_redirect, st3).
Proof.
  eexists _, _, _.
  split; [reflexivity|]. split; [reflexivity|].
  split; [vm_compute; reflexivity|].
  split; [vm_compute; reflexivity|].
  split; [reflexivity|]. split; reflexivity.
Qed.

(** ** Closed instances

    The properties above at named inputs, under [latin1_runtime]. *)

Lemma logged_in_authenticated : authenticated logged_in_state.
Proof. reflexivity. Qed.

Lemma fresh_typed : session_typed fresh_state.
Proof. intros v Hv. vm_compute in Hv. discriminate. Qed.

Lemma fresh_anonymous : ¬ authenticated fresh_state.
Proof. intros Ha. vm_compute in Ha. discriminate. Qed.

(** The padded, lower-case ticker [" aapl "] does not match the pattern,
    yet every authenticated session that submits it gets the result page,
    for the ticker [AAPL]. *)
Lemma padded_ticker_accepted :
  ticker_pattern (lit " aapl ") = false
  ∧ ∀ (R : PyRuntime) env create st,
      authenticated st →
      ∃ days prediction st',
        predict env create (submit " aapl " "10") st =
          (Ok (result_page (lit "AAPL") days prediction), st').
Proof.
  split; [vm_compute; reflexivity|].
  intros R env create st Ha. apply authenticated_flag in Ha.
  assert (ticker_refused (normalized_ticker (submit " aapl " "10")) = false)
    as Ht.
  { unfold normalized_ticker.
    replace (form_get (submit " aapl " "10") "ticker") with (lit " aapl ")
      by (vm_compute; reflexivity).
    rewrite stripped_ticker_refused by ascii_string.
    vm_compute. reflexivity. }
  destruct (predict_result env create _ st Ha Ht) as (p & st' & Hp & _).
  exists (effective_days (str_strip (form_get (submit " aapl " "10") "days"))).
  exists p, st'. rewrite Hp.
  replace (normalized_ticker (submit " aapl " "10")) with (lit "AAPL")
    by (vm_compute; reflexivity).
  reflexivity.
Qed.

Lemma ticker_validation_stripped_witness :
  ∃ days prediction st',
    predict (H:=latin1_runtime) no_credential failing_service
      (submit " aapl " "10") logged_in_state =
      (Ok (result_page (lit "AAPL") days prediction), st').
Proof.
  destruct (ticker_validation_stripped (H:=latin1_runtime) no_credential
              failing_service (submit " aapl " "10") logged_in_state
              logged_in_authenticated) as (_ & Hgo & _).
  apply Hgo; [ascii_string | vm_compute; reflexivity].
Defined.

Lemma days_effective_witness :
  ∃ prediction st',
    predict (H:=latin1_runtime) with_credential (answering_service (lit "up"))
      (submit "AAPL" "10") logged_in_state =
      (Ok (result_page (lit "AAPL") 10 prediction), st').
Proof.
  destruct (days_effective (H:=latin1_runtime) with_credential
              (answering_service (lit "up")) (submit "AAPL" "10")
              logged_in_state logged_in_authenticated (aapl_accepted "10"))
    as (days & p & st' & Hp & _ & Hin & _).
  rewrite (Hin 10%Z) in Hp; [|vm_compute; reflexivity|lia].
  rewrite aapl_normalized in Hp. by exists p, st'.
Defined.

Lemma anonymous_redirected_witness :
  index (submit "AAPL" "10") fresh_state = (Ok login_redirect, fresh_state)
  ∧ predict (H:=latin1_runtime) with_credential (answering_service (lit "up"))
      (submit "AAPL" "10") fresh_state = (Ok login_redirect, fresh_state).
Proof.
  apply (anonymous_redirected (H:=latin1_runtime)); [apply fresh_typed|apply fresh_anonymous].
Defined.

Lemma refused_ticker_rerenders_form_witness :
  ∃ context,
    predict (H:=latin1_runtime) with_credential (answering_service (lit "up"))
      (submit "BRK.B" "10") logged_in_state =
      (Ok (Render "index.html" context), logged_in_state)
    ∧ context !! "error" = Some (VStr ticker_error)
    ∧ context !! "ticker" = Some (VStr []).
Proof.
  apply (refused_ticker_rerenders_form (H:=latin1_runtime));
    [apply logged_in_authenticated | vm_compute; reflexivity].
Defined.

Lemma no_credential_fallback_witness :
  predict (H:=latin1_runtime) no_credential failing_service
    (submit "AAPL" "10") logged_in_state =
    (Ok (result_page (lit "AAPL") 10 unavailable), logged_in_state).
Proof.
  pose proof (no_credential_fallback (H:=latin1_runtime) no_credential
                failing_service (submit "AAPL" "10") logged_in_state eq_refl
                logged_in_authenticated (aapl_accepted "10")) as Hp.
  rewrite aapl_normalized in Hp.
  replace (effective_days _) with 10%Z in Hp by (vm_compute; reflexivity).
  exact Hp.
Defined.

Lemma service_failure_fallback_witness :
  ∃ st',
    predict (H:=latin1_runtime) with_credential failing_service
      (submit "AAPL" "10") logged_in_state =
      (Ok (result_page (lit "AAPL") 10 unavailable), st')
    ∧ session st' = session logged_in_state.
Proof.
  pose proof (service_failure_fallback (H:=latin1_runtime) with_credential
                failing_service (submit "AAPL" "10") logged_in_state
                (LibraryError "APIConnectionError")
                logged_in_authenticated (aapl_accepted "10")
                (or_introl eq_refl)) as Hp.
  rewrite aapl_normalized in Hp.
  replace (effective_days _) with 10%Z in Hp by (vm_compute; reflexivity).
  exact Hp.
Defined.

Lemma home_redirects_witness :
  home (submit "" "") logged_in_state =
    (Ok (Redirect (url_for "index")), logged_in_state)
  ∧ home (submit "" "") fresh_state = (Ok login_redirect, fresh_state).
Proof.
  split.
  - apply home_redirects; [|apply logged_in_authenticated].
    intros v Hv. vm_compute in Hv. injection Hv as <-. by exists true.
  - apply home_redirects; [apply fresh_typed|apply fresh_anonymous].
Defined.

Lemma ticker_normalized_witness :
  ∃ days prediction st',
    predict (H:=latin1_runtime) with_credential (answering_service (lit "up"))
      (submit " aapl " "10") logged_in_state =
      (Ok (result_page (lit "AAPL") days prediction), st')
    ∧ sent st' = [request_for (lit "AAPL") days].
Proof.
  destruct (ticker_normalized (H:=latin1_runtime) with_credential
              (answering_service (lit "up")) (submit " aapl " "10")
              logged_in_state logged_in_authenticated) as [_ Hgo].
  destruct Hgo as (days & p & st' & Hp & Hsent & _); [vm_compute; reflexivity|].
  exists days, p, st'. split; [exact Hp|exact Hsent].
Defined.

(** * Further properties of the views *)

(** ** More on [str.strip] *)

Section StripFacts.
Context `{PyRuntime}.

Lemma skip_while_all p s :
  Forall (λ ch, p ch = true) s → skip_while p s = [].
Proof. induction 1 as [|ch s Hch _ IH]; [done|]. simpl. by rewrite Hch. Qed.

Lemma skip_while_prefix p a s :
  Forall (λ ch, p ch = true) a → skip_while p (a ++ s) = skip_while p s.
Proof. induction 1 as [|ch a Hch _ IH]; [done|]. simpl. by rewrite Hch. Qed.

(** What was skipped is a prefix on which [p] holds. *)
Lemma skip_while_split p s :
  ∃ a, s = a ++ skip_while p s ∧ Forall (λ ch, p ch = true) a.
Proof.
  induction s as [|ch s (a & Ha & Hp)]; [by exists []|]. simpl.
  destruct (p ch) eqn:Hch.
  - exists (ch :: a). split; [by rewrite Ha at 1|by constructor].
  - by exists [].
Qed.

Lemma skip_while_suffix p s b :
  Forall (λ ch, p ch = true) b →
  skip_while p (s ++ b) =
    match skip_while p s with [] => [] | t => t ++ b end.
Proof.
  intros Hb. induction s as [|ch s IH]; simpl.
  - by apply skip_while_all.
  - by destruct (p ch).
Qed.

(** White space around a string does not change what [strip] returns. *)
Lemma str_strip_pad a s b :
  blank a → blank b → str_strip (a ++ s ++ b) = str_strip s.
Proof.
  intros Ha Hb. unfold str_strip, str_lstrip, str_rstrip.
  rewrite skip_while_prefix by done.
  rewrite skip_while_suffix by done.
  destruct (skip_while Py_UNICODE_ISSPACE s) as [|ch t] eqn:Hs; [done|].
  rewrite reverse_app, skip_while_prefix; [done|].
  by apply Forall_reverse.
Qed.

(** A string is what [strip] returns of it, between two blanks. *)
Lemma str_strip_split s :
  ∃ a b, blank a ∧ blank b ∧ s = a ++ str_strip s ++ b.
Proof.
  destruct (skip_while_split Py_UNICODE_ISSPACE s) as (a & Ha & Hpa).
  destruct (skip_while_split Py_UNICODE_ISSPACE (reverse (str_lstrip s)))
    as (b & Hb & Hpb).
  exists a, (reverse b). split; [done|]. split; [by apply Forall_reverse|].
  unfold str_strip, str_rstrip. rewrite <- reverse_app, <- Hb.
  by rewrite reverse_involutive.
Qed.

Lemma str_strip_idemp s : str_strip (str_strip s) = str_strip s.
Proof.
  destruct (str_strip_split s) as (a & b & Ha & Hb & Hs).
  rewrite Hs at 2. by rewrite str_strip_pad.
Qed.

Lemma str_strip_blank s : blank s → str_strip s = [].
Proof.
  intros Hs. unfold str_strip, str_lstrip, str_rstrip.
  rewrite (skip_while_all _ s Hs). reflexivity.
Qed.

(** [strip] and the ASCII upper-casing commute. *)
Lemma toupper_space ch :
  Py_UNICODE_ISSPACE (Py_TOUPPER ch) = Py_UNICODE_ISSPACE ch.
Proof.
  unfold Py_TOUPPER. destruct (Py_ISLOWER ch) eqn:Hl; [|done].
  unfold Py_ISLOWER in Hl. apply andb_true_iff in Hl as [Hl1 Hl2].
  apply N.leb_le in Hl1, Hl2.
  unfold Py_UNICODE_ISSPACE.
  replace (ch - 32 <? 128) with true by (symmetry; apply N.ltb_lt; lia).
  replace (ch <? 128) with true by (symmetry; apply N.ltb_lt; lia).
  unfold Py_ascii_whitespace, Py_ISSPACE.
  repeat match goal with
  | |- context [?a <=? ?b] => destruct (N.leb_spec a b)
  | |- context [?a =? ?b] => destruct (N.eqb_spec a b)
  end; simpl; try done; lia.
Qed.

Lemma skip_while_fmap (f : N → N) p s :
  (∀ ch, p (f ch) = p ch) →
  skip_while p (f <$> s) = f <$> skip_while p s.
Proof.
  intros Hf. induction s as [|ch s IH]; [done|].
  rewrite fmap_cons. simpl. rewrite Hf. by destruct (p ch).
Qed.

Lemma str_strip_toupper s :
  str_strip (Py_TOUPPER <$> s) = Py_TOUPPER <$> str_strip s.
Proof.
  unfold str_strip, str_lstrip, str_rstrip.
  rewrite skip_while_fmap by apply toupper_space.
  rewrite <- fmap_reverse, skip_while_fmap by apply toupper_space.
  by rewrite fmap_reverse.
Qed.

Lemma toupper_idemp ch : Py_TOUPPER (Py_TOUPPER ch) = Py_TOUPPER ch.
Proof. char_cases. Qed.

Lemma fmap_toupper_ascii s : ascii_only s → ascii_only (Py_TOUPPER <$> s).
Proof.
  intros Hs. apply Forall_fmap. eapply Forall_impl; [|exact Hs].
  intros ch. apply toupper_ascii.
Qed.

(** The normalized form of an ASCII field, in one expression *)
Lemma normalize_ascii s :
  ascii_only s → str_upper (str_strip s) = str_strip (Py_TOUPPER <$> s).
Proof.
  intros Hs. rewrite str_upper_ascii by (by apply str_strip_Forall).
  by rewrite str_strip_toupper.
Qed.

End StripFacts.

(** ** The views as equations *)

Section ViewEquations.
Context `{PyRuntime}.
Variable env : environment.
Variable create : chat_request → outcome json.

Lemma home_eq req st :
  home req st =
    (Ok (Redirect (url_for (if flag st then "index" else "login"))), st).
Proof.
  unfold home, flag, mbind, view_bind, session_get.
  by destruct (py_bool _).
Qed.

Lemma index_eq req st :
  index req st =
    (Ok (if flag st
         then Render "index.html"
                (list_to_map [("error", VNone); ("ticker", VStr [])])
         else login_redirect), st).
Proof.
  unfold index, flag, mbind, view_bind, session_get.
  by destruct (py_bool _).
Qed.

Lemma login_eq req st :
  login req st =
    if String.eqb (method req) "POST"
    then (Ok (Redirect (url_for "index")),
          {| session := <["logged_in" := VBool true]> (session st);
             sent := sent st |})
    else (Ok (Render "login.html" ∅), st).
Proof. unfold login. by destruct (String.eqb _ _). Qed.

Lemma logout_eq req st :
  logout req st = (Ok login_redirect, {| session := ∅; sent := sent st |}).
Proof. reflexivity. Qed.

(** [predict] in one equation, over its three outcomes *)
Lemma predict_eq req st :
  let ticker := normalized_ticker req in
  let days := effective_days (str_strip (form_get req "days")) in
  predict env create req st =
    if negb (flag st) then (Ok login_redirect, st)
    else if ticker_refused ticker then (Ok error_page, st)
    else if configured env then
      (Ok (result_page ticker days
             (prediction_text create (request_for ticker days))),
       {| session := session st;
          sent := sent st ++ [request_for ticker days] |})
    else (Ok (result_page ticker days unavailable), st).
Proof.
  intros ticker days. destruct (flag st) eqn:Hf; simpl.
  - destruct (ticker_refused ticker) eqn:Ht.
    + by apply predict_refused.
    + by apply predict_accepted.
  - by apply predict_anonymous.
Qed.

(** [predict] reads the request through the normalized ticker and the
    stripped [days] field only. *)
Lemma predict_ext req req' st :
  normalized_ticker req' = normalized_ticker req →
  str_strip (form_get req' "days") = str_strip (form_get req "days") →
  predict env create req' st = predict env create req st.
Proof. intros Ht Hd. rewrite !predict_eq. cbv zeta. by rewrite Ht, Hd. Qed.

Lemma effective_days_blank s : blank s → effective_days (str_strip s) = 30%Z.
Proof. intros Hs. rewrite str_strip_blank by done. vm_compute. reflexivity. Qed.

Lemma reply_text_content reply :
  reply_text reply = reply_content reply ≫= content_strip.
Proof.
  unfold reply_text, reply_content, mbind, outcome_bind.
  destruct (getitem_key reply _) as [choices|]; [|done].
  destruct (getitem_0 choices) as [choice|]; [|done].
  by destruct (getitem_key choice _).
Qed.

Lemma get_index : reachable_by_get "index".
Proof.
  exists {| rule_path := "/index"; rule_methods := ["GET"];
            rule_endpoint := "index" |}.
  split; [|split; [done|]].
  - unfold url_map. do 4 apply list_elem_of_further. apply list_elem_of_here.
  - apply list_elem_of_here.
Qed.

Lemma get_login : reachable_by_get "login".
Proof.
  exists {| rule_path := "/login"; rule_methods := ["GET"; "POST"];
            rule_endpoint := "login" |}.
  split; [|split; [done|]].
  - unfold url_map. apply list_elem_of_further, list_elem_of_here.
  - apply list_elem_of_here.
Qed.

End ViewEquations.

(** ** Session and service across the views *)

Section Frame.
Context `{PyRuntime}.
Variable env : environment.
Variable create : chat_request → outcome json.

(** The state each view leaves, by cases *)
Lemma serve_after r req st :
  let st' := after (serve env create r req) st in
  match r with
  | Home | Index => st' = st
  | Login =>
      if String.eqb (method req) "POST"
      then st' = {| session := <["logged_in" := VBool true]> (session st);
                    sent := sent st |}
      else st' = st
  | Logout => st' = {| session := ∅; sent := sent st |}
  | Predict =>
      session st' = session st
      ∧ sent st' =
          sent st ++
          (if flag st && negb (ticker_refused (normalized_ticker req))
              && configured env
           then [request_for (normalized_ticker req)
                   (effective_days (str_strip (form_get req "days")))]
           else [])
  end.
Proof.
  unfold after. destruct r; cbn [serve].
  - by rewrite home_eq.
  - rewrite login_eq. by destruct (String.eqb _ _).
  - by rewrite logout_eq.
  - rewrite predict_eq. cbv zeta.
    destruct (flag st); simpl; [|by rewrite app_nil_r].
    destruct (ticker_refused _); simpl; [by rewrite app_nil_r|].
    destruct (configured env); simpl; [done|by rewrite app_nil_r].
  - by rewrite index_eq.
Qed.

(** X1: the session of a client becomes authenticated only through a
    POST to [login], and stops being authenticated only through
    [logout]; no other view, and no other method on [login], changes
    whether the session is authenticated. *)
Theorem authentication_changes r req st :
  let st' := after (serve env create r req) st in
  (¬ authenticated st → authenticated st' →
   r = Login ∧ method req = "POST")
  ∧ (authenticated st → ¬ authenticated st' → r = Logout).
Proof.
  intros st'. pose proof (serve_after r req st) as Hst. cbv zeta in Hst.
  fold st' in Hst. destruct r.
  - rewrite Hst. split; tauto.
  - destruct (String.eqb (method req) "POST") eqn:Hm.
    + split; [by apply String.eqb_eq in Hm|].
      intros _ Hna. destruct Hna. rewrite Hst. unfold authenticated. simpl.
      apply lookup_insert_eq.
    + rewrite Hst. split; tauto.
  - split; [|done]. intros _ Ha. rewrite Hst in Ha.
    unfold authenticated in Ha. simpl in Ha. by rewrite lookup_empty in Ha.
  - destruct Hst as [Hs _]. unfold authenticated. rewrite Hs. split; tauto.
  - rewrite Hst. split; tauto.
Qed.

(** X2: only [login] and [logout] write the session, and only [predict]
    calls the service: every other view leaves the whole session, resp.
    the log of calls, as it found it. *)
Theorem session_and_service_frame r req st :
  let st' := after (serve env create r req) st in
  (r ≠ Login → r ≠ Logout → session st' = session st)
  ∧ (r ≠ Predict → sent st' = sent st).
Proof.
  intros st'. pose proof (serve_after r req st) as Hst. cbv zeta in Hst.
  fold st' in Hst. destruct r.
  - by rewrite Hst.
  - split; [done|]. intros _. destruct (String.eqb _ _); by rewrite Hst.
  - split; [done|]. intros _. by rewrite Hst.
  - split; [|done]. intros _ _. by destruct Hst.
  - by rewrite Hst.
Qed.

(** X5: [predict] never writes the session, and calls the service at
    most once: exactly when the session passes the login test, the
    ticker is accepted and both the library and a non-empty key are
    there; the call made is the one for the normalized ticker and the
    effective day count. *)
Theorem predict_effects req st :
  let st' := after (predict env create req) st in
  session st' = session st
  ∧ sent st' =
      sent st ++
      (if flag st && negb (ticker_refused (normalized_ticker req))
          && configured env
       then [request_for (normalized_ticker req)
               (effective_days (str_strip (form_get req "days")))]
       else []).
Proof. exact (serve_after Predict req st). Qed.

(** X16: [login] and [logout] compose as set and clear: logging out
    after a login leaves the empty session, logging in after a logout
    leaves the session that holds [logged_in = True] and nothing else,
    and a second login changes nothing; none of them touches the log of
    calls. *)
Theorem login_logout_compose payload payload' req st :
  let post := {| method := "POST"; form := payload |} in
  let post' := {| method := "POST"; form := payload' |} in
  after (logout req) (after (login post) st) =
    {| session := ∅; sent := sent st |}
  ∧ after (login post) (after (logout req) st) =
      {| session := {["logged_in" := VBool true]}; sent := sent st |}
  ∧ after (login post') (after (login post) st) = after (login post) st.
Proof.
  intros post post'. unfold after. rewrite !login_eq, !logout_eq. simpl.
  split; [done|]. split; [by rewrite insert_empty|].
  by rewrite insert_insert_eq.
Qed.

(** X14: every redirect that a view answers with names an endpoint of
    the URL map that accepts GET, the method a browser follows a
    redirect with: the targets are [index] and [login], never the
    POST-only [logout] and [predict]. *)
Theorem redirects_reachable_by_get r req st endpoint :
  (serve env create r req st).1 = Ok (Redirect (url_for endpoint)) →
  (endpoint = "index" ∨ endpoint = "login") ∧ reachable_by_get endpoint.
Proof.
  assert (∀ e, e = "index" ∨ e = "login" → reachable_by_get e) as Hget.
  { intros e [->| ->]; [apply get_index|apply get_login]. }
  intros Hr. cut (endpoint = "index" ∨ endpoint = "login"); [by auto|].
  destruct r; cbn [serve] in Hr.
  - rewrite home_eq in Hr. simpl in Hr.
    destruct (flag st); injection Hr as <-; auto.
  - rewrite login_eq in Hr.
    destruct (String.eqb _ _); simpl in Hr; [|done].
    injection Hr as <-; auto.
  - rewrite logout_eq in Hr. injection Hr as <-; auto.
  - rewrite predict_eq in Hr. cbv zeta in Hr.
    destruct (flag st); simpl in Hr; [|injection Hr as <-; auto].
    destruct (ticker_refused _); [done|]. by destruct (configured env).
  - rewrite index_eq in Hr. simpl in Hr.
    destruct (flag st); [done|]. injection Hr as <-; auto.
Qed.

End Frame.

(** ** Invariants of the reachable states, and what the views render *)

Section Invariants.
Context `{PyRuntime}.
Variable env : environment.
Variable create : chat_request → outcome json.

Lemma reachable_after r req st :
  reachable env create st →
  reachable env create (after (serve env create r req) st).
Proof.
  intros Hst. eapply reachable_serve; [exact Hst|].
  unfold after. apply surjective_pairing.
Qed.

Lemma serve_after_eq r req st page st' :
  serve env create r req st = (page, st') →
  st' = after (serve env create r req) st.
Proof. intros Hs. unfold after. by rewrite Hs. Qed.

(** What the test of line 82 lets through *)
Lemma accepted_ticker_shape t :
  ticker_refused t = false →
  (1 ≤ List.length t ≤ 5)%nat
  ∧ Forall (λ ch, PyUnicode_IsAlpha ch = true) t.
Proof.
  unfold ticker_refused, str_bool, str_isalpha, len. intros Ht.
  apply orb_false_iff in Ht as [Ht Hlen].
  apply orb_false_iff in Ht as [Hne Halpha].
  apply Z.ltb_ge in Hlen. apply negb_false_iff in Halpha.
  destruct t as [|ch t]; [done|].
  split; [simpl in *; lia|]. by apply forallb_Forall.
Qed.

Lemma toupper_of_letter ch :
  Py_ISALPHA ch = true → Py_ISUPPER (Py_TOUPPER ch) = true.
Proof. char_cases. Qed.

(** X3: the session of every state the application can reach from a
    fresh client is either empty or holds [logged_in = True] and nothing
    else: no view ever stores anything but that flag. *)
Theorem reachable_session_shape st :
  reachable env create st →
  session st = ∅ ∨ session st = {["logged_in" := VBool true]}.
Proof.
  induction 1 as [|st r req page st' _ IH Hserve]; [by left|].
  apply serve_after_eq in Hserve.
  pose proof (serve_after env create r req st) as Hst. cbv zeta in Hst.
  rewrite <- Hserve in Hst. destruct r.
  - by rewrite Hst.
  - destruct (String.eqb _ _); rewrite Hst; [|done]. right. simpl.
    destruct IH as [-> | ->]; [apply insert_empty|].
    apply insert_singleton_eq.
  - rewrite Hst. by left.
  - destruct Hst as [-> _]. done.
  - by rewrite Hst.
Qed.

(** X4: in every reachable state, each call that was made to the service
    is well formed: model [gpt-3.5-turbo], [max_tokens] 250, the system
    prompt followed by the user prompt of a ticker that passed
    validation and of a day count in [1,60]; and when the library or the
    key is missing no call was ever made. *)
Theorem reachable_calls_well_formed st :
  reachable env create st →
  Forall well_formed_call (sent st)
  ∧ (configured env = false → sent st = []).
Proof.
  induction 1 as [|st r req page st' _ [IHwf IHnone] Hserve].
  { split; [constructor|done]. }
  apply serve_after_eq in Hserve.
  pose proof (serve_after env create r req st) as Hst. cbv zeta in Hst.
  rewrite <- Hserve in Hst. destruct r.
  - by rewrite Hst.
  - destruct (String.eqb _ _); by rewrite Hst.
  - by rewrite Hst.
  - destruct Hst as [_ ->].
    destruct (flag st && negb (ticker_refused (normalized_ticker req)))
      eqn:Hgo; simpl; [|by rewrite app_nil_r].
    destruct (configured env) eqn:Hc; simpl; [|by rewrite app_nil_r].
    split; [|done]. apply Forall_app. split; [done|].
    apply Forall_singleton. split; [done|]. split; [done|].
    eexists _, _. split; [reflexivity|].
    apply andb_true_iff in Hgo as [_ Hgo]. apply negb_true_iff in Hgo.
    split; [exact Hgo|apply effective_days_range].
  - by rewrite Hst.
Qed.

(** X9: the ticker on a result page that [predict] renders is the
    normalized field; it has between one and five code points, all of
    them alphabetic, so that none is an ASCII quote, space, digit or
    control character; and when the field was ASCII they are all in
    [A-Z]. *)
Theorem result_ticker_shape req st context :
  (predict env create req st).1 = Ok (Render "result.html" context) →
  let ticker := normalized_ticker req in
  context !! "ticker" = Some (VStr ticker)
  ∧ (1 ≤ List.length ticker ≤ 5)%nat
  ∧ Forall (λ ch, ch < 128 → Py_ISALPHA ch = true) ticker
  ∧ (ascii_only (form_get req "ticker") →
     Forall (λ ch, Py_ISUPPER ch = true) ticker).
Proof.
  intros Hp ticker. rewrite predict_eq in Hp. cbv zeta in Hp.
  fold ticker in Hp. destruct (flag st); simpl in Hp; [|done].
  destruct (ticker_refused ticker) eqn:Ht; [done|].
  destruct (accepted_ticker_shape ticker Ht) as [Hlen Halpha].
  split; [|split; [done|split]].
  - destruct (configured env); simpl in Hp; by injection Hp as <-.
  - eapply Forall_impl; [|exact Halpha]. intros ch Hch Hlt.
    by rewrite <- PyUnicode_IsAlpha_ascii.
  - intros Hascii. unfold ticker, normalized_ticker in *.
    rewrite stripped_ticker_refused in Ht by done.
    apply negb_false_iff, ticker_pattern_letters in Ht.
    rewrite str_upper_ascii by (by apply str_strip_Forall).
    apply Forall_fmap. eapply Forall_impl; [|exact Ht].
    intros ch. apply toupper_of_letter.
Qed.

(** X15: whatever a view renders, the template gets the variables it is
    written for: [login.html] nothing; [index.html] always [error] and
    [ticker], the ticker empty and the error either [None] or the
    validation message; [result.html] always [ticker], [days] and
    [prediction], for an accepted ticker and a day count in [1,60]. *)
Theorem rendered_contexts r req st template context :
  (serve env create r req st).1 = Ok (Render template context) →
  (template = "login.html" ∧ context = ∅)
  ∨ (template = "index.html"
     ∧ ∃ error, context = list_to_map [("error", error); ("ticker", VStr [])]
                ∧ (error = VNone ∨ error = VStr ticker_error))
  ∨ (template = "result.html"
     ∧ ∃ ticker days prediction,
         context = list_to_map [("ticker", VStr ticker); ("days", VInt days);
                                ("prediction", VStr prediction)]
         ∧ ticker_refused ticker = false ∧ (1 ≤ days ≤ 60)%Z).
Proof.
  intros Hr. destruct r; cbn [serve] in Hr.
  - rewrite home_eq in Hr. simpl in Hr. by destruct (flag st).
  - rewrite login_eq in Hr. destruct (String.eqb _ _); simpl in Hr; [done|].
    injection Hr as <- <-. by left.
  - by rewrite logout_eq in Hr.
  - rewrite predict_eq in Hr. cbv zeta in Hr.
    destruct (flag st); simpl in Hr; [|done].
    destruct (ticker_refused _) eqn:Ht.
    + injection Hr as <- <-. right. left. split; [done|]. eauto.
    + right. right.
      pose proof (effective_days_range (str_strip (form_get req "days"))).
      destruct (configured env); simpl in Hr; injection Hr as <- <-;
        (split; [done|]); by eexists _, _, _.
  - rewrite index_eq in Hr. simpl in Hr. destruct (flag st); [|done].
    injection Hr as <- <-. right. left. split; [done|]. eauto.
Qed.

End Invariants.

(** ** What the two fields may look like *)

Section Fields.
Context `{PyRuntime}.
Variable env : environment.
Variable create : chat_request → outcome json.

Lemma fmap_toupper_idemp (s : pystr) :
  Py_TOUPPER <$> (Py_TOUPPER <$> s) = Py_TOUPPER <$> s.
Proof.
  induction s as [|ch s IH]; [done|].
  rewrite !fmap_cons, IH. by rewrite toupper_idemp.
Qed.

(** The digit loop on a string of digits: all of it is read. *)
Lemma scan_digits_digits s value digits :
  Forall (λ ch, Py_ISDIGIT ch = true) s →
  scan_digits false value digits s =
    Some (fold_left (λ v ch, 10 * v + Z.of_N (ch - 48))%Z s value,
          digits + N.of_nat (List.length s), []).
Proof.
  intros Hs. revert value digits.
  induction Hs as [|ch s Hch _ IH]; intros value digits.
  - simpl. by rewrite N.add_0_r.
  - cbn [scan_digits]. rewrite Hch.
    replace (ch =? 95) with false by (clear IH; char_cases).
    rewrite IH. cbn [fold_left List.length]. do 3 f_equal. lia.
Qed.

(** [int] on a string of at most 640 ASCII digits *)
Lemma py_int_digits s :
  Forall (λ ch, Py_ISDIGIT ch = true) s → s ≠ [] →
  (List.length s ≤ 640)%nat →
  py_int s = Ok (decimal_value s).
Proof.
  intros Hs Hne Hlen.
  assert (ascii_only s) as Hascii.
  { eapply Forall_impl; [|exact Hs]. intros ch Hch. char_cases. }
  unfold py_int, PyUnicode_TransformDecimalAndSpaceToASCII.
  rewrite (proj1 (ascii_only_IS_ASCII s) Hascii).
  destruct s as [|ch s]; [done|]. apply Forall_cons_iff in Hs as [Hch Hs].
  unfold PyLong_FromString.
  rewrite skip_while_head by (clear Hlen; char_cases).
  assert (ch = 48 ∨ ch = 49 ∨ ch = 50 ∨ ch = 51 ∨ ch = 52 ∨ ch = 53
          ∨ ch = 54 ∨ ch = 55 ∨ ch = 56 ∨ ch = 57) as Hcases.
  { clear Hlen. unfold Py_ISDIGIT in Hch.
    apply andb_true_iff in Hch as [H1 H2]. apply N.leb_le in H1, H2. lia. }
  assert (∀ d, Py_ISDIGIT d = true →
            scan_digits false 0 0 (d :: s) =
              Some (decimal_value (d :: s),
                    N.of_nat (List.length (d :: s)), [])) as Hscan.
  { intros d Hd. rewrite scan_digits_digits by (by constructor). done. }
  assert ((N.of_nat (List.length (ch :: s)) =? 0) = false) as Hnz
    by (apply N.eqb_neq; simpl; lia).
  assert ((640 <? N.of_nat (List.length (ch :: s))) = false) as Hlim
    by (apply N.ltb_ge; lia).
  destruct Hcases as [->|[->|[->|[->|[->|[->|[->|[->|[->| ->]]]]]]]]];
    cbv beta iota zeta; rewrite Hscan by done; rewrite Hnz, Hlim;
    cbn [andb skip_while]; by rewrite Z.mul_1_l.
Qed.

(** X6: white space around either field never matters: a submission
    whose ticker and days are those of another one with white space
    added before and after gets the same answer and leaves the same
    state. *)
Theorem padding_ignored req req' st a b c d :
  blank a → blank b → blank c → blank d →
  form_get req' "ticker" = a ++ form_get req "ticker" ++ b →
  form_get req' "days" = c ++ form_get req "days" ++ d →
  predict env create req' st = predict env create req st.
Proof.
  intros Ha Hb Hc Hd Ht Hdays. apply predict_ext.
  - unfold normalized_ticker. by rewrite Ht, str_strip_pad.
  - by rewrite Hdays, str_strip_pad.
Qed.

(** X7: on ASCII fields the case of the ticker never matters: two
    submissions whose tickers differ by the case of their letters only,
    with the same days, get the same answer. *)
Theorem ticker_case_ignored req req' st :
  ascii_only (form_get req "ticker") →
  ascii_only (form_get req' "ticker") →
  Py_TOUPPER <$> form_get req' "ticker" = Py_TOUPPER <$> form_get req "ticker" →
  form_get req' "days" = form_get req "days" →
  predict env create req' st = predict env create req st.
Proof.
  intros Ha Ha' Ht Hd. apply predict_ext; [|by rewrite Hd].
  unfold normalized_ticker. rewrite !normalize_ascii by done. by rewrite Ht.
Qed.

(** X8: normalizing is idempotent on ASCII fields: the ticker a result
    page shows, submitted again with the same days, is normalized to
    itself and gets the same answer. *)
Theorem echoed_ticker_stable req req' st :
  ascii_only (form_get req "ticker") →
  form_get req' "ticker" = normalized_ticker req →
  form_get req' "days" = form_get req "days" →
  normalized_ticker req' = normalized_ticker req
  ∧ predict env create req' st = predict env create req st.
Proof.
  intros Ha Ht Hd.
  assert (normalized_ticker req' = normalized_ticker req) as Hn.
  { unfold normalized_ticker in *. rewrite Ht.
    rewrite (normalize_ascii (form_get req "ticker")) by done.
    rewrite normalize_ascii
      by (by apply str_strip_Forall, fmap_toupper_ascii).
    rewrite str_strip_toupper, str_strip_idemp, str_strip_toupper.
    by rewrite fmap_toupper_idemp. }
  split; [done|]. apply predict_ext; [done|by rewrite Hd].
Qed.

(** X10: a ticker field that is missing, empty or made of white space
    only is refused: an authenticated session gets the form with the
    validation message, and nothing else happens. *)
Theorem blank_ticker_refused req st :
  authenticated st → blank (form_get req "ticker") →
  predict env create req st = (Ok error_page, st).
Proof.
  intros Ha Hb. apply predict_refused; [by apply authenticated_flag|].
  unfold normalized_ticker. rewrite str_strip_blank by done.
  vm_compute. reflexivity.
Qed.

(** X11: a days field that is missing, empty or made of white space
    only counts as 30 days. *)
Theorem blank_days_default req st :
  authenticated st → ticker_refused (normalized_ticker req) = false →
  blank (form_get req "days") →
  ∃ prediction st',
    predict env create req st =
      (Ok (result_page (normalized_ticker req) 30 prediction), st').
Proof.
  intros Ha Ht Hb. rewrite predict_eq. cbv zeta.
  rewrite (authenticated_flag st Ha), Ht, effective_days_blank by done.
  simpl. destruct (configured env); by eexists _, _.
Qed.

(** X12: when the service answers with a reply whose content is a
    string, the result page shows that string stripped of the white
    space around it, and the call is logged; so a reply of white space
    only gives an empty prediction, not the unavailability message. *)
Theorem reply_shown_stripped req st reply content :
  authenticated st → ticker_refused (normalized_ticker req) = false →
  configured env = true →
  let ticker := normalized_ticker req in
  let days := effective_days (str_strip (form_get req "days")) in
  create (request_for ticker days) = Ok reply →
  reply_content reply = Ok (JStr content) →
  predict env create req st =
    (Ok (result_page ticker days (str_strip content)),
     {| session := session st; sent := sent st ++ [request_for ticker days] |})
  ∧ (blank content → str_strip content = []).
Proof.
  intros Ha Ht Hc ticker days Hreply Hcontent. subst ticker days.
  split; [|apply str_strip_blank].
  rewrite predict_eq. cbv zeta.
  rewrite (authenticated_flag st Ha), Ht, Hc. simpl.
  unfold prediction_text. rewrite Hreply. simpl.
  by rewrite reply_text_content, Hcontent.
Qed.

(** X13: the guard of the call needs both the library and a non-empty
    key: when [import openai] failed, or when [OPENAI_API_KEY] is set to
    the empty string, an accepted submission gets the unavailability
    message and no call is made, as when the key is not set. *)
Theorem library_or_key_missing_fallback req st :
  openai env = false ∨ OPENAI_API_KEY env = Some [] →
  authenticated st → ticker_refused (normalized_ticker req) = false →
  predict env create req st =
    (Ok (result_page (normalized_ticker req)
           (effective_days (str_strip (form_get req "days"))) unavailable),
     st).
Proof.
  intros Hmiss Ha Ht. rewrite predict_eq. cbv zeta.
  rewrite (authenticated_flag st Ha), Ht. simpl.
  replace (configured env) with false; [done|].
  unfold configured. destruct Hmiss as [-> | ->]; [done|].
  by rewrite andb_false_r.
Qed.

(** X17: a days field written with ASCII digits only, at most 640 of
    them and leading zeros allowed, is read as the number it writes in
    base 10: that number is the day count when it lies in [1,60], and
    the day count is 30 otherwise. *)
Theorem digits_days req (s : pystr) :
  Forall (λ ch, Py_ISDIGIT ch = true) s → s ≠ [] →
  (List.length s ≤ 640)%nat →
  form_get req "days" = s →
  py_int (str_strip s) = Ok (decimal_value s)
  ∧ effective_days (str_strip (form_get req "days")) =
      (if (decimal_value s <? 1)%Z || (60 <? decimal_value s)%Z
       then 30%Z else decimal_value s).
Proof.
  intros Hs Hne Hlen ->.
  assert (str_strip s = s) as Hstrip.
  { apply str_strip_none. eapply Forall_impl; [|exact Hs].
    intros ch Hch. clear Hlen. char_cases. }
  unfold effective_days. rewrite Hstrip, py_int_digits by done. done.
Qed.

(** X18: the day count survives the round trip through its decimal
    writing: the number written in the prompt and on the result page,
    submitted as the days field, gives the same day count. *)
Theorem days_echo_stable days_str :
  effective_days (str_strip (py_str_int (effective_days days_str))) =
    effective_days days_str.
Proof. apply days_roundtrip, effective_days_range. Qed.

End Fields.

(** ** Closed instances of the further properties *)

Lemma blank_forallb `{PyRuntime} s :
  forallb Py_UNICODE_ISSPACE s = true → blank s.
Proof. apply forallb_Forall. Qed.

Ltac blank_string := apply blank_forallb; vm_compute; reflexivity.

Lemma reachable_session_shape_witness :
  let st := after (serve (H:=latin1_runtime) with_credential failing_service
                     Login login_post) fresh_state in
  session st = ∅ ∨ session st = {["logged_in" := VBool true]}.
Proof.
  apply (reachable_session_shape (H:=latin1_runtime) with_credential
           failing_service).
  apply reachable_after, reachable_fresh.
Defined.

Lemma reachable_calls_well_formed_witness :
  let serve := serve (H:=latin1_runtime) with_credential
                 (answering_service (lit "Flat.")) in
  let st := after (serve Predict (submit "AAPL" "10"))
              (after (serve Login login_post) fresh_state) in
  Forall (well_formed_call (H:=latin1_runtime)) (sent st)
  ∧ (configured with_credential = false → sent st = []).
Proof.
  apply (reachable_calls_well_formed (H:=latin1_runtime) with_credential
           (answering_service (lit "Flat."))).
  do 2 apply reachable_after. apply reachable_fresh.
Defined.

Lemma result_ticker_shape_witness :
  let req := submit " aapl " "10" in
  let ticker := normalized_ticker (H:=latin1_runtime) req in
  (list_to_map [("ticker", VStr (lit "AAPL")); ("days", VInt 10);
                ("prediction", VStr unavailable)] : gmap string pyval)
    !! "ticker" = Some (VStr ticker)
  ∧ (1 ≤ List.length ticker ≤ 5)%nat
  ∧ Forall (λ ch, ch < 128 → Py_ISALPHA ch = true) ticker
  ∧ (ascii_only (form_get req "ticker") →
     Forall (λ ch, Py_ISUPPER ch = true) ticker).
Proof.
  apply (result_ticker_shape (H:=latin1_runtime) no_credential failing_service
           (submit " aapl " "10") logged_in_state).
  vm_compute. reflexivity.
Defined.

Lemma redirects_reachable_by_get_witness :
  ("login" = "index" ∨ "login" = "login") ∧ reachable_by_get "login".
Proof.
  apply (redirects_reachable_by_get (H:=latin1_runtime) no_credential
           failing_service Logout login_post logged_in_state "login").
  reflexivity.
Defined.

Lemma rendered_contexts_witness :
  let context : gmap string pyval :=
    list_to_map [("error", VStr ticker_error); ("ticker", VStr [])] in
  ("index.html" = "login.html" ∧ context = ∅)
  ∨ ("index.html" = "index.html"
     ∧ ∃ error, context = list_to_map [("error", error); ("ticker", VStr [])]
                ∧ (error = VNone ∨ error = VStr ticker_error))
  ∨ ("index.html" = "result.html"
     ∧ ∃ ticker days prediction,
         context = list_to_map [("ticker", VStr ticker); ("days", VInt days);
                                ("prediction", VStr prediction)]
         ∧ ticker_refused (H:=latin1_runtime) ticker = false
         ∧ (1 ≤ days ≤ 60)%Z).
Proof.
  apply (rendered_contexts (H:=latin1_runtime) with_credential failing_service
           Predict (submit "BRK.B" "10") logged_in_state).
  vm_compute. reflexivity.
Defined.

Lemma padding_ignored_witness :
  predict (H:=latin1_runtime) with_credential (answering_service (lit "Flat."))
    (submit "  AAPL " " 10 ") logged_in_state =
  predict (H:=latin1_runtime) with_credential (answering_service (lit "Flat."))
    (submit "AAPL" "10") logged_in_state.
Proof.
  apply (padding_ignored (H:=latin1_runtime) _ _ _ _ _
           (lit "  ") (lit " ") (lit " ") (lit " "));
    try blank_string; vm_compute; reflexivity.
Defined.

Lemma ticker_case_ignored_witness :
  predict (H:=latin1_runtime) with_credential (answering_service (lit "Flat."))
    (submit "aApl" "10") logged_in_state =
  predict (H:=latin1_runtime) with_credential (answering_service (lit "Flat."))
    (submit "AAPL" "10") logged_in_state.
Proof.
  apply (ticker_case_ignored (H:=latin1_runtime));
    try ascii_string; vm_compute; reflexivity.
Defined.

Lemma echoed_ticker_stable_witness :
  normalized_ticker (H:=latin1_runtime) (submit "AAPL" "10") =
    normalized_ticker (H:=latin1_runtime) (submit " aapl " "10")
  ∧ predict (H:=latin1_runtime) no_credential failing_service
      (submit "AAPL" "10") logged_in_state =
    predict (H:=latin1_runtime) no_credential failing_service
      (submit " aapl " "10") logged_in_state.
Proof.
  apply (echoed_ticker_stable (H:=latin1_runtime));
    try ascii_string; vm_compute; reflexivity.
Defined.

Lemma blank_ticker_refused_witness :
  predict (H:=latin1_runtime) with_credential (answering_service (lit "Flat."))
    (submit "   " "10") logged_in_state = (Ok error_page, logged_in_state).
Proof.
  apply (blank_ticker_refused (H:=latin1_runtime));
    [apply logged_in_authenticated|].
  replace (form_get (submit "   " "10") "ticker") with (lit "   ")
    by (vm_compute; reflexivity).
  blank_string.
Defined.

Lemma blank_days_default_witness :
  ∃ prediction st',
    predict (H:=latin1_runtime) no_credential failing_service
      (submit "AAPL" " ") logged_in_state =
      (Ok (result_page (normalized_ticker (H:=latin1_runtime)
                          (submit "AAPL" " ")) 30 prediction), st').
Proof.
  apply (blank_days_default (H:=latin1_runtime));
    [apply logged_in_authenticated | apply aapl_accepted |].
  replace (form_get (submit "AAPL" " ") "days") with (lit " ")
    by (vm_compute; reflexivity).
  blank_string.
Defined.

Lemma reply_shown_stripped_witness :
  let req := submit "AAPL" "10" in
  let ticker := normalized_ticker (H:=latin1_runtime) req in
  let days :=
    effective_days (H:=latin1_runtime)
      (str_strip (H:=latin1_runtime) (form_get req "days")) in
  predict (H:=latin1_runtime) with_credential
    (answering_service (lit "  Up.  ")) req logged_in_state =
    (Ok (result_page ticker days (str_strip (H:=latin1_runtime) (lit "  Up.  "))),
     {| session := session logged_in_state;
        sent := sent logged_in_state ++ [request_for ticker days] |})
  ∧ (blank (H:=latin1_runtime) (lit "  Up.  ") →
     str_strip (H:=latin1_runtime) (lit "  Up.  ") = []).
Proof.
  eapply (reply_shown_stripped (H:=latin1_runtime) with_credential
            (answering_service (lit "  Up.  ")) (submit "AAPL" "10")
            logged_in_state);
    [apply logged_in_authenticated | apply aapl_accepted | reflexivity
    | reflexivity | vm_compute; reflexivity].
Defined.

Lemma library_or_key_missing_fallback_witness :
  predict (H:=latin1_runtime) no_library (answering_service (lit "Flat."))
    (submit "AAPL" "10") logged_in_state =
    (Ok (result_page (normalized_ticker (H:=latin1_runtime) (submit "AAPL" "10"))
           (effective_days (H:=latin1_runtime)
              (str_strip (H:=latin1_runtime)
                 (form_get (submit "AAPL" "10") "days"))) unavailable),
     logged_in_state).
Proof.
  apply (library_or_key_missing_fallback (H:=latin1_runtime));
    [by left | apply logged_in_authenticated | apply aapl_accepted].
Defined.

Lemma digits_days_witness :
  effective_days (H:=latin1_runtime)
    (str_strip (H:=latin1_runtime) (form_get (submit "AAPL" "007") "days")) = 7%Z.
Proof.
  destruct (digits_days (H:=latin1_runtime) (submit "AAPL" "007") (lit "007"))
    as [_ Hd].
  - apply forallb_Forall. vm_compute. reflexivity.
  - discriminate.
  - vm_compute. lia.
  - vm_compute. reflexivity.
  - rewrite Hd. vm_compute. reflexivity.
Defined.
